(** * tinynet: address resolution and connection lifecycle

    A shallow embedding of package [tinynet] (the TCP layer built on the
    unisockets socket primitives) together with the properties of its
    address parser, its socket-address codec and its listener / connection
    operations, and of the connection function of the echo server built on
    it.

    Conventions of the embedding.
    - Go's [int] is the 64-bit signed integer, [byte], [uint16], [uint32]
      and [int32] are carried by [Z] with the conversions written out.
    - A Go [string] is a sequence of bytes: [String.string].
    - A Go [error] interface value is [option error], [None] being [nil].
    - A pointer that may be [nil] is an [option].
    - A run-time panic is an explicit outcome, distinct from a returned
      error.
    - The socket primitives are calls to an external provider; a function
      that uses them is a tree of calls ([prog]) which a handler
      interprets over a world of its choice. *)

From Stdlib Require Import ZArith String Ascii List Lia Bool.
From stdpp Require Import base list.
Import ListNotations.

Local Open Scope string_scope.
Local Open Scope list_scope.
Local Open Scope Z_scope.

(** ** Machine integers *)

Definition byte (z : Z) : Z := z mod 2 ^ 8.
Definition uint16 (z : Z) : Z := z mod 2 ^ 16.
Definition uint32 (z : Z) : Z := z mod 2 ^ 32.

Definition is_byte (z : Z) : Prop := 0 <= z < 2 ^ 8.
Definition is_uint16 (z : Z) : Prop := 0 <= z < 2 ^ 16.

Definition intSize : Z := 64.
Definition maxUint64 : Z := 2 ^ 64 - 1.

(** ** Errors and outcomes *)

Inductive numErr : Type := ErrSyntax | ErrRange.

(** The dynamic values an [error] can hold in this program: a value made
    by [errors.New] inside the package, a [*strconv.NumError], or an error
    handed back by the socket provider. *)
Inductive error : Type :=
| errorsNew (text : string)
| NumError (Func Num : string) (Err : numErr)
| providerError (text : string).

Inductive outcome (A : Type) : Type :=
| Returns (a : A)
| Panics (msg : string).
Arguments Returns {A} a.
Arguments Panics {A} msg.

(** ** package strings / strconv *)

(** [strings.Split(s, sep)] for a one-byte separator, the only use the
    package makes of it. *)
Fixpoint Split (s : string) (sep : ascii) : list string :=
  match s with
  | EmptyString => [EmptyString]
  | String c rest =>
      if Ascii.eqb c sep then EmptyString :: Split rest sep
      else match Split rest sep with
           | [] => [String c EmptyString]
           | hd :: tl => String c hd :: tl
           end
  end.

Definition code (c : ascii) : Z := Z.of_N (N_of_ascii c).

Definition strlen (s : string) : Z := Z.of_nat (String.length s).

(** The digit loop of [Atoi]'s fast path: [ch -= '0'; if ch > 9]. *)
Fixpoint atoiDigits (s : string) (n : Z) : option Z :=
  match s with
  | EmptyString => Some n
  | String c rest =>
      let ch := byte (code c - 48) in
      if 9 <? ch then None else atoiDigits rest (n * 10 + ch)
  end.

(** The digit loop of [ParseUint(s, 10, 64)].  The accumulator is a
    [uint64]; the two overflow tests of the library ([n >= cutoff] before
    the multiplication, [n1 < n || n1 > maxVal] after the addition) are
    the two tests below, the second one on the unwrapped sum. *)
Fixpoint parseUintDigits (s : string) (n : Z) : Z * option numErr :=
  match s with
  | EmptyString => (n, None)
  | String c rest =>
      if (48 <=? code c) && (code c <=? 57) then
        let d := code c - 48 in
        if maxUint64 / 10 + 1 <=? n then (maxUint64, Some ErrRange)
        else
          let n1 := n * 10 + d in
          if maxUint64 <? n1 then (maxUint64, Some ErrRange)
          else parseUintDigits rest n1
      else
        (* a letter is a digit of value 10 or more, not below the base;
           any other byte is no digit at all *)
        (0, Some ErrSyntax)
  end.

Definition ParseUint (s : string) : Z * option numErr :=
  match s with
  | EmptyString => (0, Some ErrSyntax)
  | _ => parseUintDigits s 0
  end.

Definition ParseInt (s : string) : Z * option numErr :=
  match s with
  | EmptyString => (0, Some ErrSyntax)
  | String c rest =>
      let neg := Ascii.eqb c "-" in
      let s' := if Ascii.eqb c "+" || neg then rest else s in
      match ParseUint s' with
      | (_, Some ErrSyntax) => (0, Some ErrSyntax)
      | (un, _) =>
          let cutoff := 2 ^ (intSize - 1) in
          if negb neg && (cutoff <=? un) then (cutoff - 1, Some ErrRange)
          else if neg && (cutoff <? un) then (- cutoff, Some ErrRange)
          else (if neg then - un else un, None)
      end
  end.

(** [strconv.Atoi] on a 64-bit platform. *)
Definition Atoi (s : string) : Z * option error :=
  if (0 <? strlen s) && (strlen s <? 19) then
    match s with
    | EmptyString => (0, Some (NumError "Atoi" s ErrSyntax))
    | String c rest =>
        let signed := Ascii.eqb c "-" || Ascii.eqb c "+" in
        let s' := if signed then rest else s in
        if signed && (strlen s' <? 1) then (0, Some (NumError "Atoi" s ErrSyntax))
        else
          match atoiDigits s' 0 with
          | None => (0, Some (NumError "Atoi" s ErrSyntax))
          | Some n => (if Ascii.eqb c "-" then - n else n, None)
          end
    end
  else
    match ParseInt s with
    | (i64, Some e) => (i64, Some (NumError "Atoi" s e))
    | (i64, None) => (i64, None)
    end.

(** ** Addresses *)

(** [type IP []byte] *)
Abbreviation IP := (list Z).

Record TCPAddr : Type := mkTCPAddr {
  stringAddr : string;
  IP_ : IP;
  Port : Z;
  Zone : string
}.

(** [make([]byte, n)] *)
Definition make (n : nat) : list Z := replicate n 0.

(** The octet loop of [ResolveTCPAddr]: [i] is the index of the next
    part, [ip] the slice filled so far. *)
Inductive loopResult : Type :=
| LoopDone (ip : IP)
| LoopErr
| LoopPanic.

Fixpoint octets (parts : list string) (i : nat) (ip : IP) : loopResult :=
  match parts with
  | [] => LoopDone ip
  | part :: rest =>
      match Atoi part with
      | (_, Some _) => LoopErr
      | (innerPart, None) =>
          if decide (i < length ip)%nat
          then octets rest (S i) (<[i := byte innerPart]> ip)
          else LoopPanic
      end
  end.

Definition ResolveTCPAddr (network address : string)
  : outcome (option TCPAddr * option error) :=
  let parts := Split address ":" in
  let ip := make 4 in
  match parts with
  | [] => Panics "index out of range [0] with length 0"
  | host :: _ =>
      match octets (Split host ".") 0 ip with
      | LoopErr => Returns (None, Some (errorsNew "could not parse IP"))
      | LoopPanic => Panics "index out of range [4] with length 4"
      | LoopDone ip' =>
          match parts !! 1%nat with
          | None => Panics "index out of range [1] with length 1"
          | Some portPart =>
              match Atoi portPart with
              | (_, Some _) => Returns (None, Some (errorsNew "could not parse port"))
              | (port, None) =>
                  Returns (Some (mkTCPAddr address ip' port ""), None)
              end
          end
      end
  end.

(** ** The socket provider (package unisockets)

    The provider's declarations are not part of the package; its constants
    and its byte-order helper are fixed here, its functions are the calls
    of [prog] below. *)

(** Modelled from the spec: the address family of stream sockets,
    [unisockets.PF_INET]. *)
Definition PF_INET : Z := 2.

(** Modelled from the spec: the stream socket type,
    [unisockets.SOCK_STREAM]. *)
Definition SOCK_STREAM : Z := 1.

(** Modelled from the spec: shutdown of both directions,
    [unisockets.SHUT_RDWR]. *)
Definition SHUT_RDWR : Z := 2.

(** Modelled from the spec: [unisockets.Htons], the byte-order helper
    [hostToNetworkShort(uint16) -> uint16]: the 16-bit value in big-endian
    (network) order as seen by the little-endian host, that is, with its
    two bytes exchanged. *)
Definition Htons (v : Z) : Z :=
  Z.lor (uint16 (Z.shiftl v 8)) (Z.shiftr v 8).

Record InAddr : Type := mkInAddr { SAddr : Z }.

Record SockaddrIn : Type := mkSockaddrIn {
  SinFamily : Z;
  SinPort : Z;
  SinAddr : InAddr
}.

(** [unisockets.SockaddrIn{}] *)
Definition zeroSockaddrIn : SockaddrIn := mkSockaddrIn 0 0 (mkInAddr 0).

(** [binary.LittleEndian.Uint32]: bounds check on [b[3]], then the four
    bytes combined, lowest first. *)
Definition LittleEndian_Uint32 (b : list Z) : outcome Z :=
  match b with
  | b0 :: b1 :: b2 :: b3 :: _ =>
      Returns (Z.lor (Z.lor (Z.lor (uint32 b0) (uint32 (Z.shiftl b1 8)))
                            (uint32 (Z.shiftl b2 16)))
                     (uint32 (Z.shiftl b3 24)))
  | _ => Panics "index out of range [3]"
  end.

(** The socket address built at the head of [ListenTCP] and of [DialTCP]
    (the same struct literal in both). *)
Definition encodeSockaddr (a : TCPAddr) : outcome SockaddrIn :=
  match LittleEndian_Uint32 (IP_ a) with
  | Panics msg => Panics msg
  | Returns saddr =>
      Returns (mkSockaddrIn PF_INET (Htons (uint16 (Port a))) (mkInAddr saddr))
  end.

(** The remote address built by [AcceptTCP] from the socket address the
    provider filled in. *)
Definition decodeSockaddr (clientAddress : SockaddrIn) : TCPAddr :=
  let s := SAddr (SinAddr clientAddress) in
  mkTCPAddr ""
            [byte s; byte (Z.shiftr s 8); byte (Z.shiftr s 16); byte (Z.shiftr s 24)]
            (SinPort clientAddress)
            "".

(** An error value of the provider; it is never one of the package's own
    [errors.New] values. *)
Record perror : Type := mkPerror { perrorText : string }.

Definition fromProvider (e : option perror) : option error :=
  match e with
  | Some pe => Some (providerError (perrorText pe))
  | None => None
  end.

Inductive call : Type :=
| CSocket (domain typ protocol : Z)
| CBind (fd : Z) (addr : SockaddrIn)
| CListen (fd : Z) (backlog : Z)
| CAccept (fd : Z) (addr : SockaddrIn)
| CConnect (fd : Z) (addr : SockaddrIn)
| CSend (fd : Z) (msg : list Z) (flags : Z)
| CRecv (fd : Z) (msg : list Z) (n : Z) (flags : Z)
| CShutdown (fd : Z) (how : Z).

(** What the provider hands back: the returned values and, for a call with
    an out parameter, the contents the provider left in it. *)
Definition resp (c : call) : Type :=
  match c with
  | CSocket _ _ _ => (Z * option perror)%type
  | CBind _ _ => option perror
  | CListen _ _ => option perror
  | CAccept _ _ => (Z * option perror * SockaddrIn)%type
  | CConnect _ _ => option perror
  | CSend _ _ _ => (Z * option perror)%type
  | CRecv _ _ _ _ => (Z * option perror * list Z)%type
  | CShutdown _ _ => option perror
  end.

(** ** Programs over the provider *)

Inductive prog (A : Type) : Type :=
| Ret (a : A)
| Panic (msg : string)
| Vis (c : call) (k : resp c -> prog A).
Arguments Ret {A} a.
Arguments Panic {A} msg.
Arguments Vis {A} c k.

Fixpoint pbind {A B : Type} (m : prog A) (f : A -> prog B) : prog B :=
  match m with
  | Ret a => f a
  | Panic msg => Panic msg
  | Vis c k => Vis c (fun r => pbind (k r) f)
  end.

#[export] Instance prog_ret : MRet prog := fun A a => Ret a.
#[export] Instance prog_bind : MBind prog := fun A B f m => pbind m f.

Definition lift {A : Type} (o : outcome A) : prog A :=
  match o with
  | Returns a => Ret a
  | Panics msg => Panic msg
  end.

Definition trigger (c : call) : prog (resp c) := Vis c Ret.

(** A provider: how each call is answered, over a world [W]. *)
Definition handler (W : Type) : Type := forall c : call, W -> resp c * W.

(** Running a program against a provider: the outcome, the final world and
    the calls made, in order. *)
Fixpoint run {W A : Type} (h : handler W) (m : prog A) (w : W)
  : outcome A * W * list call :=
  match m with
  | Ret a => (Returns a, w, [])
  | Panic msg => (Panics msg, w, [])
  | Vis c k =>
      let '(r, w1) := h c w in
      let '(o, w2, tr) := run h (k r) w1 in
      (o, w2, c :: tr)
  end.

Definition result {W A : Type} (x : outcome A * W * list call) : outcome A := fst (fst x).
Definition world {W A : Type} (x : outcome A * W * list call) : W := snd (fst x).
Definition calls {W A : Type} (x : outcome A * W * list call) : list call := snd x.

(** The provider's functions, as the package calls them. *)
Definition Socket (domain typ protocol : Z) : prog (Z * option error) :=
  '(fd, e) ← trigger (CSocket domain typ protocol); mret (fd, fromProvider e).
Definition Bind (fd : Z) (addr : SockaddrIn) : prog (option error) :=
  e ← trigger (CBind fd addr); mret (fromProvider e).
Definition Listen_ (fd backlog : Z) : prog (option error) :=
  e ← trigger (CListen fd backlog); mret (fromProvider e).
Definition Accept (fd : Z) (addr : SockaddrIn) : prog (Z * option error * SockaddrIn) :=
  '(fd', e, addr') ← trigger (CAccept fd addr); mret (fd', fromProvider e, addr').
Definition Connect (fd : Z) (addr : SockaddrIn) : prog (option error) :=
  e ← trigger (CConnect fd addr); mret (fromProvider e).
Definition Send (fd : Z) (msg : list Z) (flags : Z) : prog (Z * option error) :=
  '(n, e) ← trigger (CSend fd msg flags); mret (n, fromProvider e).
Definition Recv (fd : Z) (msg : list Z) (n flags : Z) : prog (Z * option error * list Z) :=
  '(n', e, msg') ← trigger (CRecv fd msg n flags); mret (n', fromProvider e, msg').
Definition Shutdown (fd how : Z) : prog (option error) :=
  e ← trigger (CShutdown fd how); mret (fromProvider e).

(** ** Listeners and connections *)

Record TCPListener : Type := mkTCPListener {
  lfd : Z;
  addr : option TCPAddr
}.

Record TCPConn : Type := mkTCPConn {
  fd : Z;
  laddr : option TCPAddr;
  raddr : option TCPAddr
}.

(** [TCPListener{}] and [TCPConn{}] *)
Definition zeroTCPListener : TCPListener := mkTCPListener 0 None.
Definition zeroTCPConn : TCPConn := mkTCPConn 0 None None.

(** The dynamic values of the [net.Listener] that [Listen] returns: a
    [TCPListener] struct, or a [*TCPListener], which may be [nil]. *)
Inductive Listener : Type :=
| ListenerValue (l : TCPListener)
| ListenerPointer (p : option TCPListener).

Definition ListenTCP (network : string) (laddr : option TCPAddr)
  : prog (option TCPListener * option error) :=
  match laddr with
  | None => Panic "nil pointer dereference"
  | Some a =>
      serverAddress ← lift (encodeSockaddr a);
      '(serverSocket, err) ← Socket PF_INET SOCK_STREAM 0;
      match err with
      | Some e => mret (None, Some e)
      | None =>
          err ← Bind serverSocket serverAddress;
          match err with
          | Some e => mret (None, Some e)
          | None =>
              err ← Listen_ serverSocket 5;
              match err with
              | Some e => mret (None, Some e)
              | None => mret (Some (mkTCPListener serverSocket laddr), None)
              end
          end
      end
  end.

Definition Listen (network address : string) : prog (Listener * option error) :=
  '(laddr, err) ← lift (ResolveTCPAddr network address);
  match err with
  | Some e => mret (ListenerValue zeroTCPListener, Some e)
  | None =>
      '(l, err) ← ListenTCP network laddr;
      mret (ListenerPointer l, err)
  end.

Definition TCPListener_Close (t : TCPListener) : prog (option error) :=
  Shutdown (lfd t) SHUT_RDWR.

Definition TCPListener_Addr (t : TCPListener) : option TCPAddr := addr t.

Definition AcceptTCP (l : TCPListener) : prog (option TCPConn * option error) :=
  let clientAddress := zeroSockaddrIn in
  '(clientSocket, err, clientAddress) ← Accept (lfd l) clientAddress;
  match err with
  | Some e => mret (None, Some e)
  | None =>
      match addr l with
      | None => Panic "interface conversion: net.Addr is nil, not *tinynet.TCPAddr"
      | Some la =>
          mret (Some (mkTCPConn clientSocket
                        (Some (mkTCPAddr "" (IP_ la) (Port la) ""))
                        (Some (decodeSockaddr clientAddress))),
                None)
      end
  end.

Definition TCPListener_Accept (l : TCPListener) : prog (option TCPConn * option error) :=
  '(conn, err) ← AcceptTCP l; mret (conn, err).

Definition DialTCP (network : string) (laddr raddr : option TCPAddr)
  : prog (option TCPConn * option error) :=
  match raddr with
  | None => Panic "nil pointer dereference"
  | Some a =>
      serverAddress ← lift (encodeSockaddr a);
      '(serverSocket, err) ← Socket PF_INET SOCK_STREAM 0;
      match err with
      | Some e => mret (None, Some e)
      | None =>
          err ← Connect serverSocket serverAddress;
          match err with
          | Some e => mret (None, Some e)
          | None => mret (Some (mkTCPConn serverSocket laddr raddr), None)
          end
      end
  end.

Definition Dial (network address : string) : prog (TCPConn * option error) :=
  '(raddr, err) ← lift (ResolveTCPAddr network address);
  match err with
  | Some e => mret (zeroTCPConn, Some e)
  | None =>
      '(conn, err) ← DialTCP network None raddr;
      match err with
      | Some e => mret (zeroTCPConn, Some e)
      | None =>
          match conn with
          | None => Panic "nil pointer dereference"
          | Some c => mret (c, err)
          end
      end
  end.

(** [copy(dst, src)]: the contents of [dst] afterwards. *)
Definition copy (dst src : list Z) : list Z :=
  take (length dst) src ++ drop (length src) dst.

Definition len (b : list Z) : Z := Z.of_nat (length b).

(** [Read]: the contents of the caller's [b] after the call, and the two
    returned values. *)
Definition TCPConn_Read (c : TCPConn) (b : list Z) : prog (list Z * (Z * option error)) :=
  let readMsg := make (length b) in
  '(n, err, readMsg) ← Recv (fd c) readMsg (uint32 (len b)) 0;
  if n =? 0 then mret (b, (n, Some (errorsNew "client disconnected")))
  else mret (copy b readMsg, (n, err)).

Definition TCPConn_Write (c : TCPConn) (b : list Z) : prog (Z * option error) :=
  '(n, err) ← Send (fd c) b 0;
  if n =? 0 then mret (n, Some (errorsNew "client disconnected"))
  else mret (n, err).

Definition TCPConn_Close (c : TCPConn) : prog (option error) :=
  Shutdown (fd c) SHUT_RDWR.

Definition TCPConn_LocalAddr (c : TCPConn) : option TCPAddr := laddr c.

Definition TCPConn_RemoteAddr (c : TCPConn) : option TCPAddr := laddr c.

(** ** The remaining methods of the package *)

Definition TCPAddr_Network (t : TCPAddr) : string := "tcp".

Definition TCPAddr_String (t : TCPAddr) : string := stringAddr t.

(** The three deadline setters ignore their argument and return nil. *)
Definition TCPConn_SetDeadline {Time : Type} (c : TCPConn) (t : Time)
  : prog (option error) := mret None.

Definition TCPConn_SetReadDeadline {Time : Type} (c : TCPConn) (t : Time)
  : prog (option error) := mret None.

Definition TCPConn_SetWriteDeadline {Time : Type} (c : TCPConn) (t : Time)
  : prog (option error) := mret None.

(** ** The echo server (cmd/net_echo_server)

    The function run for each accepted connection.  Next to the provider's
    calls it writes lines to the standard output; a line is recorded by
    the operands handed to [fmt.Println]. *)

Definition LADDR : string := "127.0.0.1:1234".
Definition BUFLEN : nat := 1024.

Inductive printArg : Type :=
| PString (s : string)
| PError (e : error).

Inductive event : Type :=
| EvCall (c : call)
| EvPrintln (args : list printArg).

Inductive mprog (A : Type) : Type :=
| MDone (a : A)
| MPanic (msg : string)
| MCall (c : call) (k : resp c -> mprog A)
| MPrintln (args : list printArg) (k : mprog A).
Arguments MDone {A} a.
Arguments MPanic {A} msg.
Arguments MCall {A} c k.
Arguments MPrintln {A} args k.

Fixpoint mpbind {A B : Type} (m : mprog A) (f : A -> mprog B) : mprog B :=
  match m with
  | MDone a => f a
  | MPanic msg => MPanic msg
  | MCall c k => MCall c (fun r => mpbind (k r) f)
  | MPrintln args k => MPrintln args (mpbind k f)
  end.

#[export] Instance mprog_ret : MRet mprog := fun A a => MDone a.
#[export] Instance mprog_bind : MBind mprog := fun A B f m => mpbind m f.

(** A function of the package, called from the server. *)
Fixpoint embed {A : Type} (m : prog A) : mprog A :=
  match m with
  | Ret a => MDone a
  | Panic msg => MPanic msg
  | Vis c k => MCall c (fun r => embed (k r))
  end.

Definition Println (args : list printArg) : mprog unit := MPrintln args (MDone tt).

Fixpoint mrun {W A : Type} (h : handler W) (m : mprog A) (w : W)
  : outcome A * W * list event :=
  match m with
  | MDone a => (Returns a, w, [])
  | MPanic msg => (Panics msg, w, [])
  | MCall c k =>
      let '(r, w1) := h c w in
      let '(o, w2, tr) := mrun h (k r) w1 in
      (o, w2, EvCall c :: tr)
  | MPrintln args k =>
      let '(o, w1, tr) := mrun h k w in
      (o, w1, EvPrintln args :: tr)
  end.

(** [[]byte(s)] *)
Fixpoint bytesOf (s : string) : list Z :=
  match s with
  | EmptyString => []
  | String c rest => code c :: bytesOf rest
  end.

(** [[]byte(fmt.Sprintf("You've sent: %v", string(buf)))] *)
Definition echoReply (buf : list Z) : list Z :=
  bytesOf "You've sent: " ++ buf.

(** One pass through the body of the [for] loop; [true] when the pass
    ends in [break]. *)
Definition echoOnce (innerConn : TCPConn) : mprog bool :=
  let buf := make BUFLEN in
  '(buf, (n, err)) ← embed (TCPConn_Read innerConn buf);
  match err with
  | Some e =>
      if n =? 0 then mret true
      else
        Println [PString "could not read from connection, removing connection";
                 PError e];;
        mret true
  | None =>
      let out := echoReply buf in
      '(n, err) ← embed (TCPConn_Write innerConn out);
      match err with
      | Some e =>
          if n =? 0 then mret true
          else
            Println [PString "could not write from connection, removing connection";
                     PError e];;
            mret true
      | None => mret false
      end
  end.

(** The [for] loop, for at most [fuel] passes; [true] when it was left by
    a [break], [false] when the passes ran out first. *)
Fixpoint echoLoop (fuel : nat) (innerConn : TCPConn) : mprog bool :=
  match fuel with
  | O => mret false
  | S fuel' =>
      stop ← echoOnce innerConn;
      if stop : bool then mret true else echoLoop fuel' innerConn
  end.

(** The whole function; [false] when the loop did not end within [fuel]
    passes. *)
Definition serveConn (fuel : nat) (innerConn : TCPConn) : mprog bool :=
  left ← echoLoop fuel innerConn;
  if left : bool then
    Println [PString "Client disconnected"];;
    err ← embed (TCPConn_Close innerConn);
    match err with
    | Some e => Println [PString "could not close connection"; PError e];; mret true
    | None => mret true
    end
  else mret false.

(** ** Sample providers, for running the package on concrete inputs *)

(** Every call succeeds; descriptors are handed out from a counter; a
    receive fills the buffer with the byte 7 and reports [n] bytes, a send
    reports the length of the message; an accepted peer is [peer]. *)
Definition okProvider (peer : SockaddrIn) (n : Z) : handler Z :=
  fun c w =>
    match c return resp c * Z with
    | CSocket _ _ _ => ((w, None), w + 1)
    | CBind _ _ => (None, w)
    | CListen _ _ => (None, w)
    | CAccept _ _ => ((w, None, peer), w + 1)
    | CConnect _ _ => (None, w)
    | CSend _ msg _ => ((len msg, None), w)
    | CRecv _ msg _ _ => ((n, None, replicate (length msg) 7), w)
    | CShutdown _ _ => (None, w)
    end.

(** Every send and every receive is answered with the count [n] and the
    error [e], a receive filling the buffer with the byte 7. *)
Definition ioProvider (n : Z) (e : option perror) : handler unit :=
  fun c w =>
    match c return resp c * unit with
    | CSocket _ _ _ => ((3, None), w)
    | CBind _ _ => (None, w)
    | CListen _ _ => (None, w)
    | CAccept _ a => ((4, None, a), w)
    | CConnect _ _ => (None, w)
    | CSend _ _ _ => ((n, e), w)
    | CRecv _ msg _ _ => ((n, e, replicate (length msg) 7), w)
    | CShutdown _ _ => (None, w)
    end.

(** The world counts the calls made so far; the call number [k] (from 0)
    fails with [e], returning -1 where a count or descriptor is due. *)
Definition failAt (k : Z) (e : perror) : handler Z :=
  fun c w =>
    let err := if w =? k then Some e else None in
    let v := if w =? k then -1 else 3 in
    match c return resp c * Z with
    | CSocket _ _ _ => ((v, err), w + 1)
    | CBind _ _ => (err, w + 1)
    | CListen _ _ => (err, w + 1)
    | CAccept _ a => ((v, err, a), w + 1)
    | CConnect _ _ => (err, w + 1)
    | CSend _ _ _ => ((v, err), w + 1)
    | CRecv _ msg _ _ => ((v, err, msg), w + 1)
    | CShutdown _ _ => (err, w + 1)
    end.

(** ** Vocabulary of the specification *)

(** A part that [Atoi] accepts, and one it rejects. *)
Definition numeric (part : string) : Prop := snd (Atoi part) = None.
Definition nonNumeric (part : string) : Prop := snd (Atoi part) <> None.

(** A string of decimal digits. *)
Fixpoint allDigits (s : string) : Prop :=
  match s with
  | EmptyString => True
  | String c rest => 48 <= code c <= 57 /\ allDigits rest
  end.

(** The bytes the octet loop stores for a list of accepted parts. *)
Definition octetBytes (parts : list string) : IP :=
  map (fun part => byte (fst (Atoi part))) parts.

(** The call that releases a descriptor. *)
Definition isShutdown (c : call) : bool :=
  match c with
  | CShutdown _ _ => true
  | _ => false
  end.

(** The calls of the echo server on a connection, and what it asks of
    each: a receive of [BUFLEN] bytes into a zeroed scratch buffer, a send
    of the reply prefix followed by [BUFLEN] bytes, a shutdown of both
    directions; always on the connection's own descriptor. *)
Definition echoEvent (conn : TCPConn) (e : event) : Prop :=
  match e with
  | EvCall (CRecv f msg n flags) =>
      f = fd conn /\ msg = make BUFLEN /\ n = 1024 /\ flags = 0
  | EvCall (CSend f msg flags) =>
      f = fd conn /\ flags = 0 /\ length msg = 1037%nat
      /\ take 13 msg = bytesOf "You've sent: "
  | EvCall (CShutdown f how) => f = fd conn /\ how = SHUT_RDWR
  | EvCall _ => False
  | EvPrintln _ => True
  end.

Definition isShutdownEvent (e : event) : bool :=
  match e with
  | EvCall c => isShutdown c
  | EvPrintln _ => false
  end.

Definition isSendEvent (e : event) : bool :=
  match e with
  | EvCall (CSend _ _ _) => true
  | _ => false
  end.

Definition isPrintln (e : event) : bool :=
  match e with
  | EvPrintln _ => true
  | EvCall _ => false
  end.

Definition countSends (tr : list event) : nat :=
  length (List.filter isSendEvent tr).

(** ** The ways of being malformed that the specification lists *)

(** The text before the first colon. *)
Definition hostOf (address : string) : string :=
  match Split address ":" with
  | host :: _ => host
  | [] => ""
  end.

Definition missingColon (address : string) : Prop :=
  (length (Split address ":") < 2)%nat.

Definition nonNumericOctet (address : string) : Prop :=
  Exists nonNumeric (Split (hostOf address) ".").

Definition nonNumericPort (address : string) : Prop :=
  exists portPart : string,
    Split address ":" !! 1%nat = Some portPart /\ nonNumeric portPart.

Definition octetCount (address : string) : nat :=
  length (Split (hostOf address) ".").

Definition malformed (address : string) : Prop :=
  missingColon address \/ nonNumericOctet address
  \/ nonNumericPort address \/ octetCount address <> 4%nat.

(** [resolve] "returns an AddressParseError and no partial value". *)
Definition parseError (o : outcome (option TCPAddr * option error)) : Prop :=
  exists e : error, o = Returns (None, Some e).

(** * Properties *)

(** ** Bit-level facts used by the codec *)

Lemma land_shiftl_low (a b n : Z) :
  0 <= n -> 0 <= b < 2 ^ n -> Z.land (Z.shiftl a n) b = 0.
Proof.
  intros Hn Hb. apply Z.bits_inj'. intros i Hi.
  rewrite Z.land_spec, Z.bits_0.
  destruct (Z.lt_ge_cases i n) as [Hlt | Hge].
  - rewrite Z.shiftl_spec_low by assumption. reflexivity.
  - replace b with (b mod 2 ^ n) by (apply Z.mod_small; assumption).
    rewrite Z.mod_pow2_bits_high by lia. apply andb_false_r.
Qed.

Lemma lor_shiftl_add (a b n : Z) :
  0 <= n -> 0 <= b < 2 ^ n -> Z.lor (Z.shiftl a n) b = a * 2 ^ n + b.
Proof.
  intros Hn Hb.
  rewrite <- Z.lxor_lor by (apply land_shiftl_low; assumption).
  rewrite <- Z.add_nocarry_lxor by (apply land_shiftl_low; assumption).
  rewrite Z.shiftl_mul_pow2 by assumption. reflexivity.
Qed.

Lemma lor_add_shiftl (a b n : Z) :
  0 <= n -> 0 <= b < 2 ^ n -> Z.lor b (Z.shiftl a n) = b + a * 2 ^ n.
Proof.
  intros Hn Hb. rewrite Z.lor_comm, lor_shiftl_add by assumption. lia.
Qed.

(** [Htons] exchanges the two bytes of a 16-bit value. *)
Lemma Htons_swap (v : Z) :
  is_uint16 v -> Htons v = 256 * (v mod 256) + v / 256.
Proof.
  unfold is_uint16, Htons, uint16. intros Hv.
  rewrite Z.shiftl_mul_pow2, Z.shiftr_div_pow2 by lia.
  assert (Hlow : (v * 2 ^ 8) mod 2 ^ 16 = (v mod 256) * 2 ^ 8).
  { change (2 ^ 16) with (2 ^ 8 * 2 ^ 8). change (2 ^ 8) with 256.
    rewrite Z.mul_mod_distr_r by lia. reflexivity. }
  rewrite Hlow, <- Z.shiftl_mul_pow2 by lia.
  rewrite lor_shiftl_add.
  - change (2 ^ 8) with 256. lia.
  - lia.
  - change (2 ^ 8) with 256. split.
    + apply Z.div_pos; lia.
    + apply Z.div_lt_upper_bound; lia.
Qed.

Lemma Htons_range (v : Z) : is_uint16 v -> is_uint16 (Htons v).
Proof.
  intros Hv. rewrite Htons_swap by assumption.
  unfold is_uint16 in *. change (2 ^ 16) with 65536 in *.
  pose proof (Z.mod_pos_bound v 256 ltac:(lia)).
  assert (0 <= v / 256 < 256).
  { split; [apply Z.div_pos; lia | apply Z.div_lt_upper_bound; lia]. }
  lia.
Qed.

Lemma uint16_range (z : Z) : is_uint16 (uint16 z).
Proof. apply Z.mod_pos_bound. reflexivity. Qed.

Lemma byte_range (z : Z) : is_byte (byte z).
Proof. apply Z.mod_pos_bound. reflexivity. Qed.

(** Four bytes, lowest first, as one 32-bit word. *)
Lemma LittleEndian_Uint32_bytes (b0 b1 b2 b3 : Z) (tl : list Z) :
  is_byte b0 -> is_byte b1 -> is_byte b2 -> is_byte b3 ->
  LittleEndian_Uint32 (b0 :: b1 :: b2 :: b3 :: tl) =
  Returns (b0 + 256 * b1 + 65536 * b2 + 16777216 * b3).
Proof.
  unfold is_byte, LittleEndian_Uint32, uint32. intros H0 H1 H2 H3.
  change (2 ^ 8) with 256 in *.
  rewrite !Z.shiftl_mul_pow2 by lia.
  change (2 ^ 8) with 256. change (2 ^ 16) with 65536.
  change (2 ^ 24) with 16777216. change (2 ^ 32) with 4294967296.
  rewrite !Z.mod_small by lia.
  f_equal.
  replace (b1 * 256) with (Z.shiftl b1 8) by (rewrite Z.shiftl_mul_pow2; lia).
  rewrite lor_add_shiftl by (change (2 ^ 8) with 256; lia).
  change (2 ^ 8) with 256.
  replace (b2 * 65536) with (Z.shiftl b2 16) by (rewrite Z.shiftl_mul_pow2; lia).
  rewrite lor_add_shiftl by (change (2 ^ 16) with 65536; lia).
  change (2 ^ 16) with 65536.
  replace (b3 * 16777216) with (Z.shiftl b3 24) by (rewrite Z.shiftl_mul_pow2; lia).
  rewrite lor_add_shiftl by (change (2 ^ 24) with 16777216; lia).
  change (2 ^ 24) with 16777216. lia.
Qed.

(** The shifts of [AcceptTCP] take such a word apart again. *)
Lemma decode_bytes (b0 b1 b2 b3 : Z) :
  is_byte b0 -> is_byte b1 -> is_byte b2 -> is_byte b3 ->
  let s := b0 + 256 * b1 + 65536 * b2 + 16777216 * b3 in
  [byte s; byte (Z.shiftr s 8); byte (Z.shiftr s 16); byte (Z.shiftr s 24)]
  = [b0; b1; b2; b3].
Proof.
  unfold is_byte, byte. intros H0 H1 H2 H3. cbv zeta.
  rewrite !Z.shiftr_div_pow2 by lia.
  change (2 ^ 8) with 256 in *. change (2 ^ 16) with 65536.
  change (2 ^ 24) with 16777216.
  repeat f_equal; Z.div_mod_to_equations; lia.
Qed.

(** ** The address parser *)

Lemma numeric_dec (part : string) : {numeric part} + {nonNumeric part}.
Proof.
  unfold numeric, nonNumeric. destruct (snd (Atoi part)) as [e |].
  - right. discriminate.
  - left. reflexivity.
Defined.

(** [Atoi] reads every string of up to 17 digits, and the same string
    behind a minus sign as the opposite number. *)
Lemma atoiDigits_digits (s : string) :
  forall n : Z,
    0 <= n -> allDigits s -> exists v : Z, 0 <= v /\ atoiDigits s n = Some v.
Proof.
  induction s as [| c rest IH]; intros n Hn Hd; simpl.
  - exists n. split; [exact Hn | reflexivity].
  - destruct Hd as [Hc Hrest]. unfold byte.
    rewrite Z.mod_small by (change (2 ^ 8) with 256; lia).
    destruct (Z.ltb_spec 9 (code c - 48)) as [Hgt | Hle]; [lia |].
    apply IH; [lia | exact Hrest].
Qed.

Lemma Atoi_digits (s : string) :
  (0 < String.length s < 18)%nat -> allDigits s ->
  exists v : Z,
    0 <= v /\ Atoi s = (v, None) /\ Atoi (String "-" s) = (- v, None).
Proof.
  intros Hlen Hd.
  destruct (atoiDigits_digits s 0 ltac:(lia) Hd) as (v & Hv & Hat).
  exists v. split; [exact Hv |]. split.
  - unfold Atoi, strlen.
    destruct (Z.ltb_spec 0 (Z.of_nat (String.length s))) as [_ | H]; [| lia].
    destruct (Z.ltb_spec (Z.of_nat (String.length s)) 19) as [_ | H]; [| lia].
    cbn [andb].
    destruct s as [| c rest]; [simpl in Hlen; lia |].
    destruct Hd as [Hc Hrest].
    assert (Hminus : Ascii.eqb c "-" = false).
    { destruct (Ascii.eqb_spec c "-") as [-> | _]; [| reflexivity].
      exfalso. destruct Hc as [Hc _]. apply Hc. reflexivity. }
    assert (Hplus : Ascii.eqb c "+" = false).
    { destruct (Ascii.eqb_spec c "+") as [-> | _]; [| reflexivity].
      exfalso. destruct Hc as [Hc _]. apply Hc. reflexivity. }
    rewrite Hminus, Hplus. cbn [orb andb].
    rewrite Hat. reflexivity.
  - unfold Atoi, strlen. cbn [String.length].
    destruct (Z.ltb_spec 0 (Z.of_nat (S (String.length s)))) as [_ | H]; [| lia].
    destruct (Z.ltb_spec (Z.of_nat (S (String.length s))) 19) as [_ | H]; [| lia].
    cbn [andb]. change (Ascii.eqb "-" "-") with true. cbn [orb andb].
    destruct (Z.ltb_spec (Z.of_nat (String.length s)) 1) as [H | _]; [lia |].
    rewrite Hat. reflexivity.
Qed.

Lemma Split_nonempty (s : string) (sep : ascii) : Split s sep <> [].
Proof.
  destruct s as [| c rest]; simpl.
  - discriminate.
  - destruct (Ascii.eqb c sep); [discriminate |].
    destruct (Split rest sep); discriminate.
Qed.

Lemma octets_length (parts : list string) :
  forall (i : nat) (ip ip' : IP),
    octets parts i ip = LoopDone ip' -> length ip' = length ip.
Proof.
  induction parts as [| part rest IH]; intros i ip ip' H; cbn [octets] in H.
  - inversion H. reflexivity.
  - destruct (Atoi part) as [v [e |]]; [discriminate |].
    destruct (decide (i < length ip)%nat); [| discriminate].
    apply IH in H. rewrite H. apply length_insert.
Qed.

Lemma octets_bytes (parts : list string) :
  forall (i : nat) (ip ip' : IP),
    Forall is_byte ip -> octets parts i ip = LoopDone ip' -> Forall is_byte ip'.
Proof.
  induction parts as [| part rest IH]; intros i ip ip' Hip H; cbn [octets] in H.
  - inversion H. subst. assumption.
  - destruct (Atoi part) as [v [e |]]; [discriminate |].
    destruct (decide (i < length ip)%nat); [| discriminate].
    eapply IH; [| exact H].
    apply Forall_insert; [assumption | apply byte_range].
Qed.

(** With room for every part, the loop ends without a panic: in an error
    when some part is rejected by [Atoi], in a filled slice otherwise. *)
Lemma octets_rejected (parts : list string) :
  forall (i : nat) (ip : IP),
    (i + length parts <= length ip)%nat ->
    Exists nonNumeric parts -> octets parts i ip = LoopErr.
Proof.
  induction parts as [| part rest IH]; intros i ip Hlen Hex; cbn [octets].
  - inversion Hex.
  - simpl in Hlen. unfold nonNumeric in Hex.
    destruct (Atoi part) as [v [e |]] eqn:HA; [reflexivity |].
    destruct (decide (i < length ip)%nat); [| lia].
    apply IH.
    + rewrite length_insert. lia.
    + inversion Hex as [? ? Hbad | ? ? Hrest]; subst.
      * rewrite HA in Hbad. simpl in Hbad. congruence.
      * exact Hrest.
Qed.

Lemma octets_accepted (parts : list string) :
  forall (i : nat) (ip : IP),
    (i + length parts <= length ip)%nat ->
    Forall numeric parts -> exists ip', octets parts i ip = LoopDone ip'.
Proof.
  induction parts as [| part rest IH]; intros i ip Hlen Hall; cbn [octets].
  - eexists. reflexivity.
  - simpl in Hlen. inversion Hall as [| ? ? Hnum Hrest]; subst.
    unfold numeric in Hnum.
    destruct (Atoi part) as [v [e |]]; [discriminate |].
    destruct (decide (i < length ip)%nat); [| lia].
    apply IH; [rewrite length_insert; lia | exact Hrest].
Qed.

(** A part beyond the end of the slice is a panic, unless an earlier
    part was rejected. *)
Lemma octets_overflow (parts : list string) :
  forall (i : nat) (ip : IP),
    (i <= length ip < i + length parts)%nat ->
    Forall numeric parts -> octets parts i ip = LoopPanic.
Proof.
  induction parts as [| part rest IH]; intros i ip Hlen Hall; cbn [octets].
  - simpl in Hlen. lia.
  - simpl in Hlen. inversion Hall as [| ? ? Hnum Hrest]; subst.
    unfold numeric in Hnum.
    destruct (Atoi part) as [v [e |]]; [discriminate |].
    destruct (decide (i < length ip)%nat); [| reflexivity].
    apply IH; [rewrite length_insert; lia | exact Hrest].
Qed.


(** Whatever [ResolveTCPAddr] returns as an address has four bytes, keeps
    the text it was parsed from, and comes without an error; an error
    comes without an address. *)
Lemma ResolveTCPAddr_returns (network address : string)
      (r : option TCPAddr) (e : option error) :
  ResolveTCPAddr network address = Returns (r, e) ->
  match r with
  | Some a =>
      e = None /\ length (IP_ a) = 4%nat /\ Forall is_byte (IP_ a)
      /\ stringAddr a = address /\ Zone a = ""
  | None => e <> None
  end.
Proof.
  unfold ResolveTCPAddr.
  destruct (Split address ":") as [| host rest] eqn:Hs; [discriminate |].
  destruct (octets (Split host ".") 0 (make 4)) as [ip | |] eqn:Ho;
    [| intros H; inversion H; discriminate | discriminate].
  destruct ((host :: rest) !! 1%nat) as [portPart |]; [| discriminate].
  destruct (Atoi portPart) as [port [err |]]; intros H; inversion H; subst.
  - discriminate.
  - simpl. repeat split.
    + apply octets_length in Ho. exact Ho.
    + eapply octets_bytes; [| exact Ho].
      unfold make. apply Forall_replicate. unfold is_byte. lia.
Qed.

(** The codec on a resolved address: the four bytes come back, the port
    comes back with its two bytes exchanged. *)
Lemma codec_on_resolved (network address : string) (a : TCPAddr) :
  ResolveTCPAddr network address = Returns (Some a, None) ->
  exists sa : SockaddrIn,
    encodeSockaddr a = Returns sa
    /\ IP_ (decodeSockaddr sa) = IP_ a
    /\ Port (decodeSockaddr sa) = Htons (uint16 (Port a)).
Proof.
  intros H. apply ResolveTCPAddr_returns in H.
  destruct H as (_ & Hlen & Hbytes & _).
  destruct a as [sa ip port zone]. simpl in *.
  destruct ip as [| b0 [| b1 [| b2 [| b3 [| b4 tl]]]]]; simpl in Hlen; try lia.
  inversion Hbytes as [| ? ? H0 Hb1]; subst.
  inversion Hb1 as [| ? ? H1 Hb2]; subst.
  inversion Hb2 as [| ? ? H2 Hb3]; subst.
  inversion Hb3 as [| ? ? H3 _]; subst.
  unfold encodeSockaddr. cbn [IP_ Port].
  rewrite LittleEndian_Uint32_bytes by assumption.
  eexists. split; [reflexivity |]. split.
  - unfold decodeSockaddr. cbn [SinAddr SAddr IP_].
    apply decode_bytes; assumption.
  - reflexivity.
Qed.

(** ** Specified properties of the parser and the codec *)

(** C8: resolve("127.0.0.1:1234") succeeds and yields the four IP bytes
    [127,0,0,1] and the port 1234. *)
Theorem ResolveTCPAddr_localhost_1234 (network : string) :
  exists a : TCPAddr,
    ResolveTCPAddr network "127.0.0.1:1234" = Returns (Some a, None)
    /\ IP_ a = [127; 0; 0; 1] /\ Port a = 1234.
Proof. eexists. split; [reflexivity |]. split; reflexivity. Qed.

(** C7: the encoded socket address of an address with four IP bytes has
    the stream-socket family constant as its family, the port reduced to
    16 bits with its high byte first as its port field, and the four IP
    bytes packed lowest first into a 32-bit integer as its address field;
    the encoding is a function of the IP bytes and the port alone and
    always returns. *)
Theorem encodeSockaddr_layout (a : TCPAddr) (b0 b1 b2 b3 : Z) :
  IP_ a = [b0; b1; b2; b3] ->
  is_byte b0 -> is_byte b1 -> is_byte b2 -> is_byte b3 ->
  encodeSockaddr a =
  Returns (mkSockaddrIn PF_INET
             (256 * (uint16 (Port a) mod 256) + uint16 (Port a) / 256)
             (mkInAddr (b0 + 256 * b1 + 65536 * b2 + 16777216 * b3))).
Proof.
  intros Hip H0 H1 H2 H3. unfold encodeSockaddr. rewrite Hip.
  rewrite LittleEndian_Uint32_bytes by assumption.
  rewrite Htons_swap by apply uint16_range. reflexivity.
Qed.

Lemma encodeSockaddr_layout_witness :
  encodeSockaddr (mkTCPAddr "127.0.0.1:1234" [127; 0; 0; 1] 1234 "") =
  Returns (mkSockaddrIn PF_INET
             (256 * (uint16 1234 mod 256) + uint16 1234 / 256)
             (mkInAddr (127 + 256 * 0 + 65536 * 0 + 16777216 * 1))).
Proof.
  apply (encodeSockaddr_layout (mkTCPAddr "127.0.0.1:1234" [127; 0; 0; 1] 1234 "")
           127 0 0 1); [reflexivity | | | |]; unfold is_byte; simpl; lia.
Defined.

(** C1: at "127.0.0.1:1234" the address decoded from the encoded resolved
    address has the resolved IP bytes, but its port is 53764 where the
    resolved port is 1234: the round trip through the codec loses the
    port. *)
Theorem codec_roundtrip_at_localhost_1234 :
  exists (a : TCPAddr) (sa : SockaddrIn),
    ResolveTCPAddr "tcp" "127.0.0.1:1234" = Returns (Some a, None)
    /\ encodeSockaddr a = Returns sa
    /\ IP_ (decodeSockaddr sa) = IP_ a
    /\ Port a = 1234
    /\ Port (decodeSockaddr sa) = 53764.
Proof. do 2 eexists. repeat split; reflexivity. Qed.

(** C2, as stated, fails: "1.2.3:80" has three octets, and resolve returns
    an address for it, not an error. *)
Lemma ResolveTCPAddr_three_octets :
  malformed "1.2.3:80"
  /\ ResolveTCPAddr "tcp" "1.2.3:80"
     = Returns (Some (mkTCPAddr "1.2.3:80" [1; 2; 3; 0] 80 ""), None)
  /\ ~ parseError (ResolveTCPAddr "tcp" "1.2.3:80").
Proof.
  split; [| split].
  - unfold malformed. right. right. right. vm_compute. lia.
  - reflexivity.
  - intros [e He]. vm_compute in He. discriminate.
Qed.

(** What happens to the two kinds of malformed address that are not
    rejected with an error and do not resolve either: the index
    expressions [parts[1]] and [ip[i]] go out of range. *)
Lemma ResolveTCPAddr_missing_colon (network address : string) :
  missingColon address ->
  (octetCount address <= 4)%nat ->
  Forall numeric (Split (hostOf address) ".") ->
  ResolveTCPAddr network address = Panics "index out of range [1] with length 1".
Proof.
  unfold missingColon, octetCount, hostOf, ResolveTCPAddr.
  destruct (Split address ":") as [| host rest] eqn:Hs.
  { exfalso. eapply Split_nonempty. exact Hs. }
  intros Hcolon Hcount Hall.
  destruct (octets_accepted (Split host ".") 0 (make 4)) as [ip' Hip'];
    [unfold make; rewrite length_replicate; simpl; exact Hcount | exact Hall |].
  rewrite Hip'. destruct rest as [| p rest]; [reflexivity |].
  simpl in Hcolon. lia.
Qed.

Lemma ResolveTCPAddr_too_many_octets (network address : string) :
  (4 < octetCount address)%nat ->
  Forall numeric (Split (hostOf address) ".") ->
  ResolveTCPAddr network address = Panics "index out of range [4] with length 4".
Proof.
  unfold octetCount, hostOf, ResolveTCPAddr.
  destruct (Split address ":") as [| host rest] eqn:Hs.
  { exfalso. eapply Split_nonempty. exact Hs. }
  intros Hcount Hall.
  rewrite octets_overflow; [reflexivity | | exact Hall].
  unfold make. rewrite length_replicate. simpl. lia.
Qed.

Example ResolveTCPAddr_no_colon :
  ResolveTCPAddr "tcp" "127.0.0.1" = Panics "index out of range [1] with length 1".
Proof. reflexivity. Qed.

Example ResolveTCPAddr_five_octets :
  ResolveTCPAddr "tcp" "1.2.3.4.5:80" = Panics "index out of range [4] with length 4".
Proof. reflexivity. Qed.

(** An octet beyond 255 is not rejected either: [byte(innerPart)] keeps
    its low eight bits. *)
Example ResolveTCPAddr_octet_300 :
  ResolveTCPAddr "tcp" "1.2.300.4:80"
  = Returns (Some (mkTCPAddr "1.2.300.4:80" [1; 2; 44; 4] 80 ""), None).
Proof. reflexivity. Qed.

(** C10: whatever integer [Atoi] reads from the port segment, negative or
    beyond 65535 included, resolve returns it unchanged as the port and
    returns no error; the port is reduced modulo 2^16 only when the
    address is encoded. *)
Theorem ResolveTCPAddr_port_unchecked
        (network address host portPart : string) (rest : list string) (port : Z) :
  Split address ":" = host :: portPart :: rest ->
  (length (Split host ".") <= 4)%nat ->
  Forall numeric (Split host ".") ->
  Atoi portPart = (port, None) ->
  exists (ip : IP) (saddr : Z),
    ResolveTCPAddr network address
      = Returns (Some (mkTCPAddr address ip port ""), None)
    /\ encodeSockaddr (mkTCPAddr address ip port "")
      = Returns (mkSockaddrIn PF_INET (Htons (port mod 2 ^ 16)) (mkInAddr saddr)).
Proof.
  intros Hs Hcount Hall Hport.
  destruct (octets_accepted (Split host ".") 0 (make 4)) as [ip Hip];
    [unfold make; rewrite length_replicate; simpl; exact Hcount | exact Hall |].
  assert (Hres : ResolveTCPAddr network address
                 = Returns (Some (mkTCPAddr address ip port ""), None)).
  { unfold ResolveTCPAddr. rewrite Hs, Hip. cbn [lookup list_lookup].
    rewrite Hport. reflexivity. }
  destruct (codec_on_resolved _ _ _ Hres) as (sa & Henc & _ & _).
  exists ip.
  unfold encodeSockaddr in *. cbn [IP_ Port] in *.
  destruct (LittleEndian_Uint32 ip) as [saddr | msg]; [| discriminate].
  exists saddr. split; [exact Hres | reflexivity].
Qed.

Lemma ResolveTCPAddr_port_unchecked_witness :
  exists (ip : IP) (saddr : Z),
    ResolveTCPAddr "tcp" "1.2.3.4:-1"
      = Returns (Some (mkTCPAddr "1.2.3.4:-1" ip (-1) ""), None)
    /\ encodeSockaddr (mkTCPAddr "1.2.3.4:-1" ip (-1) "")
      = Returns (mkSockaddrIn PF_INET (Htons ((-1) mod 2 ^ 16)) (mkInAddr saddr)).
Proof.
  apply (ResolveTCPAddr_port_unchecked "tcp" "1.2.3.4:-1" "1.2.3.4" "-1" [] (-1)).
  - reflexivity.
  - vm_compute. lia.
  - vm_compute. repeat constructor.
  - reflexivity.
Defined.

Example ResolveTCPAddr_port_70000 :
  ResolveTCPAddr "tcp" "1.2.3.4:70000"
  = Returns (Some (mkTCPAddr "1.2.3.4:70000" [1; 2; 3; 4] 70000 ""), None)
  /\ encodeSockaddr (mkTCPAddr "1.2.3.4:70000" [1; 2; 3; 4] 70000 "")
     = Returns (mkSockaddrIn PF_INET (Htons 4464) (mkInAddr 67305985)).
Proof. split; reflexivity. Qed.

Example ResolveTCPAddr_port_negative :
  ResolveTCPAddr "tcp" "1.2.3.4:-1"
  = Returns (Some (mkTCPAddr "1.2.3.4:-1" [1; 2; 3; 4] (-1) ""), None)
  /\ encodeSockaddr (mkTCPAddr "1.2.3.4:-1" [1; 2; 3; 4] (-1) "")
     = Returns (mkSockaddrIn PF_INET 65535 (mkInAddr 67305985)).
Proof. split; reflexivity. Qed.

(** ** Running programs *)

Lemma run_bind {W A B : Type} (h : handler W) (m : prog A) (f : A -> prog B) :
  forall w : W,
    run h (pbind m f) w =
    match run h m w with
    | (Returns a, w1, tr1) =>
        let '(o, w2, tr2) := run h (f a) w1 in (o, w2, tr1 ++ tr2)
    | (Panics msg, w1, tr1) => (Panics msg, w1, tr1)
    end.
Proof.
  induction m as [a | msg | c k IH]; intros w; simpl.
  - destruct (run h (f a) w) as [[o w2] tr2]. reflexivity.
  - reflexivity.
  - destruct (h c w) as [r w1]. rewrite IH.
    destruct (run h (k r) w1) as [[[a | msg] w2] tr1]; [| reflexivity].
    destruct (run h (f a) w2) as [[o w3] tr2]. reflexivity.
Qed.

(** A program that starts with a pure step makes no call during it. *)
Lemma run_lift_bind {W A B : Type} (h : handler W) (o : outcome A)
      (f : A -> prog B) (w : W) :
  run h (pbind (lift o) f) w =
  match o with
  | Returns a => run h (f a) w
  | Panics msg => (Panics msg, w, [])
  end.
Proof. destruct o; reflexivity. Qed.

(** ** Specified properties of listeners and connections *)

(** C5: once the address is resolved, listen creates a stream socket,
    binds it to the encoded resolved address and marks it listening with
    backlog 5, in this order; the first of the three steps that the
    provider fails ends the sequence, its error is returned and the
    listener returned with it is the nil pointer; when all three succeed
    the listener holds the new descriptor and the resolved address. *)
Theorem Listen_sequence {W : Type} (h : handler W) (w : W)
        (network address : string) (a : TCPAddr) :
  ResolveTCPAddr network address = Returns (Some a, None) ->
  exists sa : SockaddrIn,
    encodeSockaddr a = Returns sa /\
    let '((fd, e1), w1) := h (CSocket PF_INET SOCK_STREAM 0) w in
    let '(e2, w2) := h (CBind fd sa) w1 in
    let '(e3, w3) := h (CListen fd 5) w2 in
    run h (Listen network address) w =
    match e1, e2, e3 with
    | Some e, _, _ =>
        (Returns (ListenerPointer None, Some (providerError (perrorText e))),
         w1, [CSocket PF_INET SOCK_STREAM 0])
    | None, Some e, _ =>
        (Returns (ListenerPointer None, Some (providerError (perrorText e))),
         w2, [CSocket PF_INET SOCK_STREAM 0; CBind fd sa])
    | None, None, Some e =>
        (Returns (ListenerPointer None, Some (providerError (perrorText e))),
         w3, [CSocket PF_INET SOCK_STREAM 0; CBind fd sa; CListen fd 5])
    | None, None, None =>
        (Returns (ListenerPointer (Some (mkTCPListener fd (Some a))), None),
         w3, [CSocket PF_INET SOCK_STREAM 0; CBind fd sa; CListen fd 5])
    end.
Proof.
  intros Hres.
  destruct (codec_on_resolved _ _ _ Hres) as (sa & Henc & _).
  exists sa. split; [exact Henc |].
  unfold Listen. unfold mbind at 1, prog_bind at 1.
  rewrite run_lift_bind, Hres.
  unfold ListenTCP. cbn -[encodeSockaddr PF_INET SOCK_STREAM]. rewrite Henc.
  cbn -[PF_INET SOCK_STREAM].
  destruct (h (CSocket PF_INET SOCK_STREAM 0) w) as [[fd e1] w1].
  destruct e1 as [e |]; cbn -[PF_INET SOCK_STREAM].
  { destruct (h (CBind fd sa) w1) as [e2 w2].
    destruct (h (CListen fd 5) w2) as [e3 w3]. reflexivity. }
  destruct (h (CBind fd sa) w1) as [e2 w2].
  destruct e2 as [e |]; cbn -[PF_INET SOCK_STREAM].
  { destruct (h (CListen fd 5) w2) as [e3 w3]. reflexivity. }
  destruct (h (CListen fd 5) w2) as [e3 w3].
  destruct e3 as [e |]; reflexivity.
Qed.

Lemma Listen_sequence_witness :
  exists sa : SockaddrIn,
    encodeSockaddr (mkTCPAddr "127.0.0.1:1234" [127; 0; 0; 1] 1234 "") = Returns sa /\
    let '((fd, e1), w1) := failAt 1 (mkPerror "address in use") (CSocket PF_INET SOCK_STREAM 0) 0 in
    let '(e2, w2) := failAt 1 (mkPerror "address in use") (CBind fd sa) w1 in
    let '(e3, w3) := failAt 1 (mkPerror "address in use") (CListen fd 5) w2 in
    run (failAt 1 (mkPerror "address in use")) (Listen "tcp" "127.0.0.1:1234") 0 =
    match e1, e2, e3 with
    | Some e, _, _ =>
        (Returns (ListenerPointer None, Some (providerError (perrorText e))),
         w1, [CSocket PF_INET SOCK_STREAM 0])
    | None, Some e, _ =>
        (Returns (ListenerPointer None, Some (providerError (perrorText e))),
         w2, [CSocket PF_INET SOCK_STREAM 0; CBind fd sa])
    | None, None, Some e =>
        (Returns (ListenerPointer None, Some (providerError (perrorText e))),
         w3, [CSocket PF_INET SOCK_STREAM 0; CBind fd sa; CListen fd 5])
    | None, None, None =>
        (Returns (ListenerPointer
                    (Some (mkTCPListener fd
                             (Some (mkTCPAddr "127.0.0.1:1234" [127; 0; 0; 1] 1234 "")))),
                  None),
         w3, [CSocket PF_INET SOCK_STREAM 0; CBind fd sa; CListen fd 5])
    end.
Proof.
  apply (Listen_sequence (failAt 1 (mkPerror "address in use")) 0
           "tcp" "127.0.0.1:1234"
           (mkTCPAddr "127.0.0.1:1234" [127; 0; 0; 1] 1234 "")).
  reflexivity.
Defined.

(** The three failures and the success of [Listen], run. *)
Example Listen_socket_fails :
  run (failAt 0 (mkPerror "no descriptors")) (Listen "tcp" "127.0.0.1:1234") 0
  = (Returns (ListenerPointer None, Some (providerError "no descriptors")), 1,
     [CSocket 2 1 0]).
Proof. reflexivity. Qed.

Example Listen_bind_fails :
  run (failAt 1 (mkPerror "address in use")) (Listen "tcp" "127.0.0.1:1234") 0
  = (Returns (ListenerPointer None, Some (providerError "address in use")), 2,
     [CSocket 2 1 0; CBind 3 (mkSockaddrIn 2 53764 (mkInAddr 16777343))]).
Proof. reflexivity. Qed.

Example Listen_listen_fails :
  run (failAt 2 (mkPerror "not supported")) (Listen "tcp" "127.0.0.1:1234") 0
  = (Returns (ListenerPointer None, Some (providerError "not supported")), 3,
     [CSocket 2 1 0; CBind 3 (mkSockaddrIn 2 53764 (mkInAddr 16777343));
      CListen 3 5]).
Proof. reflexivity. Qed.

Example Listen_succeeds :
  run (okProvider zeroSockaddrIn 0) (Listen "tcp" "127.0.0.1:1234") 3
  = (Returns (ListenerPointer
                (Some (mkTCPListener 3
                         (Some (mkTCPAddr "127.0.0.1:1234" [127; 0; 0; 1] 1234 "")))),
              None), 4,
     [CSocket 2 1 0; CBind 3 (mkSockaddrIn 2 53764 (mkInAddr 16777343));
      CListen 3 5]).
Proof. reflexivity. Qed.

(** When the address does not resolve, [Listen] makes no call at all: the
    error comes back with a zero [TCPListener] struct. *)
Lemma Listen_unresolved {W : Type} (h : handler W) (w : W)
      (network address : string) (r : option TCPAddr) (e : error) :
  ResolveTCPAddr network address = Returns (r, Some e) ->
  run h (Listen network address) w
  = (Returns (ListenerValue zeroTCPListener, Some e), w, []).
Proof.
  intros Hres. unfold Listen. unfold mbind at 1, prog_bind at 1.
  rewrite run_lift_bind, Hres. reflexivity.
Qed.

(** C6: dial resolves the address before anything else; a resolve error
    is returned as it is, with the zero connection and without any call to
    the provider.  With the address resolved it creates a stream socket
    and connects it to the encoded resolved address, in this order; the
    first of the two steps that the provider fails ends the sequence, its
    error is returned and the connection returned with it is the zero
    connection, which holds neither the descriptor nor an address; when
    both succeed the connection holds the new descriptor, no local address
    and the resolved address as its remote address. *)
Theorem Dial_sequence {W : Type} (h : handler W) (w : W)
        (network address : string) :
  match ResolveTCPAddr network address with
  | Panics msg => run h (Dial network address) w = (Panics msg, w, [])
  | Returns (_, Some e) =>
      run h (Dial network address) w = (Returns (zeroTCPConn, Some e), w, [])
  | Returns (None, None) =>
      run h (Dial network address) w = (Panics "nil pointer dereference", w, [])
  | Returns (Some a, None) =>
      exists sa : SockaddrIn,
        encodeSockaddr a = Returns sa /\
        let '((fd, e1), w1) := h (CSocket PF_INET SOCK_STREAM 0) w in
        let '(e2, w2) := h (CConnect fd sa) w1 in
        run h (Dial network address) w =
        match e1, e2 with
        | Some e, _ =>
            (Returns (zeroTCPConn, Some (providerError (perrorText e))),
             w1, [CSocket PF_INET SOCK_STREAM 0])
        | None, Some e =>
            (Returns (zeroTCPConn, Some (providerError (perrorText e))),
             w2, [CSocket PF_INET SOCK_STREAM 0; CConnect fd sa])
        | None, None =>
            (Returns (mkTCPConn fd None (Some a), None),
             w2, [CSocket PF_INET SOCK_STREAM 0; CConnect fd sa])
        end
  end.
Proof.
  unfold Dial. unfold mbind at 1, prog_bind at 1.
  rewrite run_lift_bind.
  destruct (ResolveTCPAddr network address) as [[[a |] [e |]] | msg] eqn:Hres;
    try reflexivity.
  destruct (codec_on_resolved _ _ _ Hres) as (sa & Henc & _).
  exists sa. split; [exact Henc |].
  unfold DialTCP. cbn -[encodeSockaddr PF_INET SOCK_STREAM]. rewrite Henc.
  cbn -[PF_INET SOCK_STREAM].
  destruct (h (CSocket PF_INET SOCK_STREAM 0) w) as [[fd e1] w1].
  destruct e1 as [e |]; cbn -[PF_INET SOCK_STREAM].
  { destruct (h (CConnect fd sa) w1) as [e2 w2]. reflexivity. }
  destruct (h (CConnect fd sa) w1) as [e2 w2].
  destruct e2 as [e |]; reflexivity.
Qed.

Example Dial_succeeds :
  run (okProvider zeroSockaddrIn 0) (Dial "tcp" "127.0.0.1:1234") 3
  = (Returns (mkTCPConn 3 None
                (Some (mkTCPAddr "127.0.0.1:1234" [127; 0; 0; 1] 1234 "")),
              None), 4,
     [CSocket 2 1 0; CConnect 3 (mkSockaddrIn 2 53764 (mkInAddr 16777343))]).
Proof. reflexivity. Qed.

Example Dial_connect_fails :
  run (failAt 1 (mkPerror "connection refused")) (Dial "tcp" "127.0.0.1:1234") 0
  = (Returns (zeroTCPConn, Some (providerError "connection refused")), 2,
     [CSocket 2 1 0; CConnect 3 (mkSockaddrIn 2 53764 (mkInAddr 16777343))]).
Proof. reflexivity. Qed.

Example Dial_unresolved :
  run (okProvider zeroSockaddrIn 0) (Dial "tcp" "localhost:80") 3
  = (Returns (zeroTCPConn, Some (errorsNew "could not parse IP")), 3, []).
Proof. reflexivity. Qed.

(** An error of the provider is never the package's disconnection
    error. *)
Lemma fromProvider_not_disconnected (e : option perror) :
  fromProvider e <> Some (errorsNew "client disconnected").
Proof. destruct e; discriminate. Qed.

(** C4: Read and Write return the disconnection error exactly when the
    provider reports 0 bytes, whatever error the provider returned with
    the 0; a count other than 0 is returned with the provider's own
    error. *)
Theorem Read_Write_disconnection {W : Type} (h : handler W) (w : W)
        (c : TCPConn) (b : list Z) :
  (let '((n, perr, readMsg), w1) :=
     h (CRecv (fd c) (make (length b)) (uint32 (len b)) 0) w in
   exists (b' : list Z) (err : option error),
     run h (TCPConn_Read c b) w
     = (Returns (b', (n, err)), w1,
        [CRecv (fd c) (make (length b)) (uint32 (len b)) 0])
     /\ (err = Some (errorsNew "client disconnected") <-> n = 0)
     /\ (n <> 0 -> err = fromProvider perr))
  /\
  (let '((n, perr), w1) := h (CSend (fd c) b 0) w in
   exists err : option error,
     run h (TCPConn_Write c b) w
     = (Returns (n, err), w1, [CSend (fd c) b 0])
     /\ (err = Some (errorsNew "client disconnected") <-> n = 0)
     /\ (n <> 0 -> err = fromProvider perr)).
Proof.
  split.
  - unfold TCPConn_Read. cbn.
    destruct (h (CRecv (fd c) (make (length b)) (uint32 (len b)) 0) w)
      as [[[n perr] readMsg] w1].
    cbn. destruct (Z.eqb_spec n 0) as [Hn | Hn]; cbn.
    + do 2 eexists. split; [reflexivity |]. split; [tauto | contradiction].
    + do 2 eexists. split; [reflexivity |]. split; [| reflexivity].
      split; [| contradiction].
      intros Herr. exfalso. exact (fromProvider_not_disconnected _ Herr).
  - unfold TCPConn_Write. cbn.
    destruct (h (CSend (fd c) b 0) w) as [[n perr] w1].
    cbn. destruct (Z.eqb_spec n 0) as [Hn | Hn]; cbn.
    + eexists. split; [reflexivity |]. split; [tauto | contradiction].
    + eexists. split; [reflexivity |]. split; [| reflexivity].
      split; [| contradiction].
      intros Herr. exfalso. exact (fromProvider_not_disconnected _ Herr).
Qed.

(** A receive of 0 bytes that the provider reports with an error of its
    own, and a failed receive (-1) with its error. *)
Example Read_zero_with_error :
  run (ioProvider 0 (Some (mkPerror "reset"))) (TCPConn_Read (mkTCPConn 4 None None) [1; 2; 3]) tt
  = (Returns ([1; 2; 3], (0, Some (errorsNew "client disconnected"))), tt,
     [CRecv 4 [0; 0; 0] 3 0]).
Proof. reflexivity. Qed.

Example Read_failed :
  run (ioProvider (-1) (Some (mkPerror "reset"))) (TCPConn_Read (mkTCPConn 4 None None) [1; 2; 3]) tt
  = (Returns ([7; 7; 7], (-1, Some (providerError "reset"))), tt,
     [CRecv 4 [0; 0; 0] 3 0]).
Proof. reflexivity. Qed.

Example Write_zero :
  run (ioProvider 0 None) (TCPConn_Write (mkTCPConn 4 None None) [1; 2; 3]) tt
  = (Returns (0, Some (errorsNew "client disconnected")), tt, [CSend 4 [1; 2; 3] 0]).
Proof. reflexivity. Qed.

(** [copy] overwrites the front of the destination and keeps its length. *)
Lemma length_copy (dst src : list Z) : length (copy dst src) = length dst.
Proof.
  unfold copy. rewrite length_app, length_take, length_drop. lia.
Qed.

Lemma copy_lookup_front (dst src : list Z) (i : nat) :
  (i < length dst)%nat -> (i < length src)%nat ->
  copy dst src !! i = src !! i.
Proof.
  intros Hd Hs. unfold copy.
  rewrite lookup_app_l by (rewrite length_take; lia).
  apply lookup_take_lt. exact Hd.
Qed.

Lemma copy_lookup_back (dst src : list Z) (i : nat) :
  (length src <= i)%nat -> copy dst src !! i = dst !! i.
Proof.
  intros Hs. unfold copy.
  destruct (decide (length src <= length dst)%nat) as [Hle | Hgt].
  - rewrite lookup_app_r by (rewrite length_take; lia).
    rewrite length_take, lookup_drop. f_equal. lia.
  - rewrite drop_ge by lia. rewrite app_nil_r.
    rewrite lookup_take_ge by lia.
    symmetry. apply lookup_ge_None. lia.
Qed.

(** C9: when the receive reports 0 bytes, Read leaves the caller's buffer
    as it was; when it reports a count other than 0, the buffer holds the
    scratch buffer copied over it. *)
Theorem Read_buffer {W : Type} (h : handler W) (w : W)
        (c : TCPConn) (b : list Z) :
  let '((n, perr, readMsg), w1) :=
    h (CRecv (fd c) (make (length b)) (uint32 (len b)) 0) w in
  exists (b' : list Z) (r : Z * option error),
    result (run h (TCPConn_Read c b) w) = Returns (b', r)
    /\ (n = 0 -> b' = b)
    /\ (n <> 0 -> b' = copy b readMsg).
Proof.
  unfold TCPConn_Read, result. cbn.
  destruct (h (CRecv (fd c) (make (length b)) (uint32 (len b)) 0) w)
    as [[[n perr] readMsg] w1].
  cbn. destruct (Z.eqb_spec n 0) as [Hn | Hn]; cbn;
    do 2 eexists; (split; [reflexivity |]); split; intros; congruence.
Qed.

Example Read_disconnected_buffer :
  result (run (okProvider zeroSockaddrIn 0) (TCPConn_Read (mkTCPConn 4 None None) [1; 2; 3]) 9)
  = Returns ([1; 2; 3], (0, Some (errorsNew "client disconnected"))).
Proof. reflexivity. Qed.

Example Read_two_bytes_buffer :
  result (run (okProvider zeroSockaddrIn 2) (TCPConn_Read (mkTCPConn 4 None None) [1; 2; 3]) 9)
  = Returns ([7; 7; 7], (2, None)).
Proof. reflexivity. Qed.

(** C3: [RemoteAddr] returns the local address of the connection, not the
    remote one.  On the connection dialed to "127.0.0.1:1234" the remote
    address held is 127.0.0.1:1234 and [RemoteAddr] returns nil; on the
    connection accepted by the listener on "127.0.0.1:1234" from the peer
    10.0.0.2 the remote address held is the decoded peer and [RemoteAddr]
    returns the listener's address. *)
Theorem RemoteAddr_returns_local :
  let server := mkTCPAddr "127.0.0.1:1234" [127; 0; 0; 1] 1234 "" in
  let peer := mkSockaddrIn PF_INET 40000 (mkInAddr 33554442) in
  (forall c : TCPConn, TCPConn_RemoteAddr c = laddr c
                       /\ TCPConn_LocalAddr c = laddr c)
  /\ (exists c : TCPConn,
        result (run (okProvider peer 0) (Dial "tcp" "127.0.0.1:1234") 3)
        = Returns (c, None)
        /\ raddr c = Some server
        /\ TCPConn_RemoteAddr c = None)
  /\ (exists c : TCPConn,
        result (run (okProvider peer 0)
                    (AcceptTCP (mkTCPListener 3 (Some server))) 4)
        = Returns (Some c, None)
        /\ raddr c = Some (mkTCPAddr "" [10; 0; 0; 2] 40000 "")
        /\ TCPConn_RemoteAddr c = Some (mkTCPAddr "" [127; 0; 0; 1] 1234 "")).
Proof.
  cbv zeta. split; [| split].
  - intros c. split; reflexivity.
  - eexists. repeat split; reflexivity.
  - eexists. repeat split; reflexivity.
Qed.

(** * Further properties of the package *)

(** ** The outcomes of the octet loop *)

Lemma numeric_nonNumeric (part : string) : numeric part -> nonNumeric part -> False.
Proof. unfold numeric, nonNumeric. intros H1 H2. exact (H2 H1). Qed.

(** The loop looks at the parts in order and stops at the first one that
    is rejected or has no room: with [k] bytes left in the slice, only the
    first [k + 1] parts matter. *)
Lemma octets_cases (parts : list string) :
  forall (i : nat) (ip : IP),
    (i <= length ip)%nat ->
    (Exists nonNumeric (take (S (length ip - i)) parts)
     /\ octets parts i ip = LoopErr)
    \/ (Forall numeric (take (S (length ip - i)) parts)
        /\ (length ip < i + length parts)%nat
        /\ octets parts i ip = LoopPanic)
    \/ (Forall numeric parts
        /\ (i + length parts <= length ip)%nat
        /\ octets parts i ip
           = LoopDone (take i ip ++ octetBytes parts ++ drop (i + length parts) ip)).
Proof.
  induction parts as [| part rest IH]; intros i ip Hi.
  - right. right. split; [constructor |]. split; [simpl; lia |].
    cbn [octets octetBytes map length app].
    rewrite Nat.add_0_r, take_drop. reflexivity.
  - cbn [octets]. change (take (S (length ip - i)) (part :: rest))
      with (part :: take (length ip - i) rest).
    destruct (numeric_dec part) as [Hnum | Hbad].
    2:{ left. split; [apply Exists_cons_hd; exact Hbad |].
        unfold nonNumeric in Hbad.
        destruct (Atoi part) as [v [e |]]; [reflexivity |].
        simpl in Hbad. congruence. }
    pose proof Hnum as Hnum'. unfold numeric in Hnum'.
    destruct (Atoi part) as [v [e |]] eqn:HA; [discriminate |].
    destruct (decide (i < length ip)%nat) as [Hlt | Hge].
    + specialize (IH (S i) (<[i := byte v]> ip)).
      rewrite length_insert in IH.
      replace (S (length ip - S i)) with (length ip - i)%nat in IH by lia.
      destruct (IH ltac:(lia)) as [(Hex & Hr) | [(Hall & Hlen & Hr) | (Hall & Hlen & Hr)]].
      * left. split; [apply Exists_cons_tl; exact Hex | exact Hr].
      * right. left. split; [constructor; assumption |].
        split; [simpl; lia | exact Hr].
      * right. right. split; [constructor; assumption |].
        split; [simpl; lia |].
        rewrite Hr. f_equal.
        rewrite (take_S_r _ i (byte v)) by (apply list_lookup_insert_eq; exact Hlt).
        rewrite take_insert_ge by lia.
        rewrite drop_insert_lt by lia.
        cbn [octetBytes map length]. rewrite HA. cbn [fst].
        rewrite <- app_assoc. cbn [app].
        replace (i + S (length rest))%nat with (S i + length rest)%nat by lia.
        reflexivity.
    + right. left. replace (length ip - i)%nat with 0%nat by lia.
      rewrite take_0. split; [repeat constructor; exact Hnum |].
      split; [simpl; lia | reflexivity].
Qed.

(** The same for the slice [ResolveTCPAddr] starts from. *)
Lemma octets_cases_4 (parts : list string) :
  (Exists nonNumeric (take 5 parts)
   /\ octets parts 0 (make 4) = LoopErr)
  \/ (Forall numeric (take 5 parts)
      /\ (4 < length parts)%nat
      /\ octets parts 0 (make 4) = LoopPanic)
  \/ (Forall numeric parts
      /\ (length parts <= 4)%nat
      /\ octets parts 0 (make 4)
         = LoopDone (octetBytes parts ++ replicate (4 - length parts) 0)).
Proof.
  pose proof (octets_cases parts 0 (make 4)) as H.
  unfold make in *. rewrite length_replicate in H.
  rewrite take_0, drop_replicate in H. cbn [app Nat.add Nat.sub] in H.
  apply H. lia.
Qed.

(** ** The outcomes of [ResolveTCPAddr] *)

Lemma Forall_numeric_take (parts : list string) (n : nat) :
  Forall numeric parts -> Exists nonNumeric (take n parts) -> False.
Proof.
  intros Hall Hex. apply Exists_exists in Hex. destruct Hex as (part & Hin & Hbad).
  apply (Forall_take _ n) in Hall.
  rewrite Forall_forall in Hall. exact (numeric_nonNumeric part (Hall part Hin) Hbad).
Qed.

Lemma Forall_Exists_numeric (parts : list string) :
  Forall numeric parts -> Exists nonNumeric parts -> False.
Proof.
  intros Hall Hex. apply Exists_exists in Hex. destruct Hex as (part & Hin & Hbad).
  rewrite Forall_forall in Hall. exact (numeric_nonNumeric part (Hall part Hin) Hbad).
Qed.

(** The five ways a call of [ResolveTCPAddr] can end, each with the
    condition on the address under which it does. *)
Lemma ResolveTCPAddr_cases (network address : string) :
  let parts := Split (hostOf address) "." in
  let R := ResolveTCPAddr network address in
  (Exists nonNumeric (take 5 parts)
   /\ R = Returns (None, Some (errorsNew "could not parse IP")))
  \/ (Forall numeric (take 5 parts) /\ (4 < length parts)%nat
      /\ R = Panics "index out of range [4] with length 4")
  \/ (Forall numeric parts /\ (length parts <= 4)%nat
      /\ Split address ":" !! 1%nat = None
      /\ R = Panics "index out of range [1] with length 1")
  \/ (Forall numeric parts /\ (length parts <= 4)%nat
      /\ exists (portPart : string),
          Split address ":" !! 1%nat = Some portPart
          /\ nonNumeric portPart
          /\ R = Returns (None, Some (errorsNew "could not parse port")))
  \/ (Forall numeric parts /\ (length parts <= 4)%nat
      /\ exists (portPart : string),
          Split address ":" !! 1%nat = Some portPart
          /\ numeric portPart
          /\ R = Returns
                 (Some (mkTCPAddr address
                          (octetBytes parts ++ replicate (4 - length parts) 0)
                          (fst (Atoi portPart)) ""),
                  None)).
Proof.
  cbv zeta. unfold hostOf, ResolveTCPAddr.
  destruct (Split address ":") as [| host rest] eqn:Hs.
  { exfalso. eapply Split_nonempty. exact Hs. }
  destruct (octets_cases_4 (Split host "."))
    as [(Hex & Hr) | [(Hall & Hlen & Hr) | (Hall & Hlen & Hr)]]; rewrite Hr.
  - left. split; [exact Hex | reflexivity].
  - right. left. repeat split; assumption.
  - right. right.
    destruct ((host :: rest) !! 1%nat) as [portPart |] eqn:Hp.
    + right. unfold numeric, nonNumeric.
      destruct (Atoi portPart) as [v [e |]] eqn:HA.
      * left. split; [exact Hall |]. split; [exact Hlen |].
        exists portPart. rewrite HA. repeat split. discriminate.
      * right. split; [exact Hall |]. split; [exact Hlen |].
        exists portPart. rewrite HA. repeat split.
    + left. repeat split; assumption.
Qed.

(** C2, amended: for every address string, (1) when [Atoi] rejects one of
    the first five octets of the host part, resolve returns the error
    "could not parse IP"; (2) when the host part has at most four octets,
    all numeric, and a colon is present with a non-numeric port segment
    behind it, resolve returns the error "could not parse port"; in both
    cases no address is returned; (3) an octet count below four is not an
    error: with all octets numeric and a numeric port segment, resolve
    returns the address whose missing octets are 0. *)
Theorem ResolveTCPAddr_rejects (network address : string) :
  (Exists nonNumeric (take 5 (Split (hostOf address) ".")) ->
   ResolveTCPAddr network address
   = Returns (None, Some (errorsNew "could not parse IP")))
  /\ ((octetCount address <= 4)%nat ->
      Forall numeric (Split (hostOf address) ".") ->
      nonNumericPort address ->
      ResolveTCPAddr network address
      = Returns (None, Some (errorsNew "could not parse port")))
  /\ ((octetCount address < 4)%nat ->
      Forall numeric (Split (hostOf address) ".") ->
      forall portPart : string,
        Split address ":" !! 1%nat = Some portPart ->
        numeric portPart ->
        ResolveTCPAddr network address
        = Returns (Some (mkTCPAddr address
                           (octetBytes (Split (hostOf address) ".")
                            ++ replicate (4 - octetCount address) 0)
                           (fst (Atoi portPart)) ""),
                   None)).
Proof.
  unfold octetCount, nonNumericPort.
  destruct (ResolveTCPAddr_cases network address)
    as [(Hex & Hr) | [(Hall & Hlen & Hr) | [(Hall & Hlen & Hp & Hr)
       | [(Hall & Hlen & p & Hp & Hbad & Hr) | (Hall & Hlen & p & Hp & Hnum & Hr)]]]];
    rewrite Hr; split; [| split | | split | | split | | split | | split].
  - intros _. reflexivity.
  - intros _ Hall _. exfalso. exact (Forall_numeric_take _ _ Hall Hex).
  - intros _ Hall p' _ _. exfalso. exact (Forall_numeric_take _ _ Hall Hex).
  - intros Hex. exfalso.
    apply Exists_exists in Hex. destruct Hex as (part & Hin & Hbad).
    rewrite Forall_forall in Hall. exact (numeric_nonNumeric _ (Hall _ Hin) Hbad).
  - intros Hle _ _. lia.
  - intros Hlt _ p' _ _. lia.
  - intros Hex. exfalso. exact (Forall_numeric_take _ _ Hall Hex).
  - intros _ _ (p & Hp' & _). congruence.
  - intros _ _ p Hp' _. congruence.
  - intros Hex. exfalso. exact (Forall_numeric_take _ _ Hall Hex).
  - intros _ _ _. reflexivity.
  - intros _ _ p' Hp' Hnum. rewrite Hp in Hp'. inversion Hp'. subst.
    exfalso. exact (numeric_nonNumeric _ Hnum Hbad).
  - intros Hex. exfalso. exact (Forall_numeric_take _ _ Hall Hex).
  - intros _ _ (p' & Hp' & Hbad). rewrite Hp in Hp'. inversion Hp'. subst.
    exfalso. exact (numeric_nonNumeric _ Hnum Hbad).
  - intros _ _ p' Hp' _. rewrite Hp in Hp'. inversion Hp'. subst. reflexivity.
Qed.

Lemma ResolveTCPAddr_rejects_witness :
  ResolveTCPAddr "tcp" "1.2.3.4.x:80"
  = Returns (None, Some (errorsNew "could not parse IP"))
  /\ ResolveTCPAddr "tcp" "1.2.3.4:http"
     = Returns (None, Some (errorsNew "could not parse port"))
  /\ ResolveTCPAddr "tcp" "1.2.3:80"
     = Returns (Some (mkTCPAddr "1.2.3:80"
                        (octetBytes (Split (hostOf "1.2.3:80") ".")
                         ++ replicate (4 - octetCount "1.2.3:80") 0)
                        (fst (Atoi "80")) ""),
                None).
Proof.
  split; [| split].
  - apply (proj1 (ResolveTCPAddr_rejects "tcp" "1.2.3.4.x:80")).
    change (Exists nonNumeric ["1"; "2"; "3"; "4"; "x"]).
    do 4 apply Exists_cons_tl. apply Exists_cons_hd.
    unfold nonNumeric. change (Some (NumError "Atoi" "x" ErrSyntax) <> None).
    discriminate.
  - apply (proj1 (proj2 (ResolveTCPAddr_rejects "tcp" "1.2.3.4:http"))).
    + change (4 <= 4)%nat. lia.
    + change (Forall numeric ["1"; "2"; "3"; "4"]).
      repeat (apply List.Forall_cons; [reflexivity |]). apply List.Forall_nil.
    + exists "http". split; [reflexivity |].
      unfold nonNumeric. change (Some (NumError "Atoi" "http" ErrSyntax) <> None).
      discriminate.
  - apply (proj2 (proj2 (ResolveTCPAddr_rejects "tcp" "1.2.3:80"))).
    + change (3 < 4)%nat. lia.
    + change (Forall numeric ["1"; "2"; "3"]).
      repeat (apply List.Forall_cons; [reflexivity |]). apply List.Forall_nil.
    + reflexivity.
    + reflexivity.
Defined.

(** X1: whenever [ResolveTCPAddr] returns, exactly one of the address and
    the error is nil; a returned address has exactly four bytes, each in
    0..255, keeps the text it was parsed from and has an empty zone. *)
Theorem ResolveTCPAddr_result_invariant
        (network address : string) (r : option TCPAddr) (e : option error) :
  ResolveTCPAddr network address = Returns (r, e) ->
  (r = None <-> e <> None)
  /\ (forall a : TCPAddr,
        r = Some a ->
        length (IP_ a) = 4%nat /\ Forall is_byte (IP_ a)
        /\ stringAddr a = address /\ Zone a = "").
Proof.
  intros H. apply ResolveTCPAddr_returns in H.
  destruct r as [a |].
  - destruct H as (He & Hlen & Hb & Hs & Hz). split.
    + split; [discriminate | intros Hne; congruence].
    + intros a' Ha. inversion Ha. subst. repeat split; assumption.
  - split.
    + split; [intros _; exact H | reflexivity].
    + intros a Ha. discriminate.
Qed.

Lemma ResolveTCPAddr_result_invariant_witness :
  (Some (mkTCPAddr "10.0.300.1:8080" [10; 0; 44; 1] 8080 "") = None
   <-> @None error <> None)
  /\ (forall a : TCPAddr,
        Some (mkTCPAddr "10.0.300.1:8080" [10; 0; 44; 1] 8080 "") = Some a ->
        length (IP_ a) = 4%nat /\ Forall is_byte (IP_ a)
        /\ stringAddr a = "10.0.300.1:8080" /\ Zone a = "").
Proof.
  apply (ResolveTCPAddr_result_invariant "tcp" "10.0.300.1:8080").
  reflexivity.
Defined.

(** X2: [ResolveTCPAddr] returns an address exactly when the host part has
    at most four octets, [Atoi] accepts all of them, and a second
    colon-separated segment exists that [Atoi] accepts; the address then
    holds each octet reduced modulo 256, zeros for the octets that are
    missing, and the port exactly as [Atoi] read it. *)
Theorem ResolveTCPAddr_resolves_iff (network address : string) (a : TCPAddr) :
  ResolveTCPAddr network address = Returns (Some a, None)
  <->
  (octetCount address <= 4)%nat
  /\ Forall numeric (Split (hostOf address) ".")
  /\ exists portPart : string,
      Split address ":" !! 1%nat = Some portPart
      /\ numeric portPart
      /\ a = mkTCPAddr address
               (octetBytes (Split (hostOf address) ".")
                ++ replicate (4 - octetCount address) 0)
               (fst (Atoi portPart)) "".
Proof.
  unfold octetCount.
  destruct (ResolveTCPAddr_cases network address)
    as [(Hex & Hr) | [(Hall & Hlen & Hr) | [(Hall & Hlen & Hp & Hr)
       | [(Hall & Hlen & p & Hp & Hbad & Hr) | (Hall & Hlen & p & Hp & Hnum & Hr)]]]];
    rewrite Hr; split.
  - discriminate.
  - intros (_ & Hall & _). exfalso. exact (Forall_numeric_take _ _ Hall Hex).
  - discriminate.
  - intros (Hle & _). lia.
  - discriminate.
  - intros (_ & _ & p & Hp' & _). congruence.
  - discriminate.
  - intros (_ & _ & p' & Hp' & Hnum & _). rewrite Hp in Hp'. inversion Hp'. subst.
    exfalso. exact (numeric_nonNumeric _ Hnum Hbad).
  - intros H. inversion H. subst. split; [exact Hlen |]. split; [exact Hall |].
    exists p. repeat split; assumption.
  - intros (_ & _ & p' & Hp' & _ & Ha). rewrite Hp in Hp'. inversion Hp'. subst.
    reflexivity.
Qed.

(** X3: [ResolveTCPAddr] returns the error "could not parse IP" exactly
    when [Atoi] rejects one of the first five octets of the host part;
    an octet behind the fifth is never looked at. *)
Theorem ResolveTCPAddr_IP_error_iff (network address : string) :
  ResolveTCPAddr network address
  = Returns (None, Some (errorsNew "could not parse IP"))
  <-> Exists nonNumeric (take 5 (Split (hostOf address) ".")).
Proof.
  destruct (ResolveTCPAddr_cases network address)
    as [(Hex & Hr) | [(Hall & Hlen & Hr) | [(Hall & Hlen & Hp & Hr)
       | [(Hall & Hlen & p & Hp & Hbad & Hr) | (Hall & Hlen & p & Hp & Hnum & Hr)]]]];
    rewrite Hr; split; try discriminate; try (intros _; assumption);
    try (intros _; reflexivity).
  - intros Hex. exfalso. exact (Forall_Exists_numeric _ Hall Hex).
  - intros Hex. exfalso. exact (Forall_numeric_take _ _ Hall Hex).
  - intros Hex. exfalso. exact (Forall_numeric_take _ _ Hall Hex).
  - intros Hex. exfalso. exact (Forall_numeric_take _ _ Hall Hex).
Qed.

(** X4: [ResolveTCPAddr] returns the error "could not parse port" exactly
    when the host part has at most four octets, all accepted by [Atoi],
    and the second colon-separated segment exists and is rejected by
    [Atoi]. *)
Theorem ResolveTCPAddr_port_error_iff (network address : string) :
  ResolveTCPAddr network address
  = Returns (None, Some (errorsNew "could not parse port"))
  <-> (octetCount address <= 4)%nat
      /\ Forall numeric (Split (hostOf address) ".")
      /\ nonNumericPort address.
Proof.
  unfold octetCount, nonNumericPort.
  destruct (ResolveTCPAddr_cases network address)
    as [(Hex & Hr) | [(Hall & Hlen & Hr) | [(Hall & Hlen & Hp & Hr)
       | [(Hall & Hlen & p & Hp & Hbad & Hr) | (Hall & Hlen & p & Hp & Hnum & Hr)]]]];
    rewrite Hr; split; try discriminate.
  - intros (_ & Hall & _). exfalso. exact (Forall_numeric_take _ _ Hall Hex).
  - intros (Hle & _). lia.
  - intros (_ & _ & p & Hp' & _). congruence.
  - intros _. split; [exact Hlen |]. split; [exact Hall |]. exists p. split; assumption.
  - intros _. reflexivity.
  - intros (_ & _ & p' & Hp' & Hbad). rewrite Hp in Hp'. inversion Hp'. subst.
    exfalso. exact (numeric_nonNumeric _ Hnum Hbad).
Qed.

(** X5: [ResolveTCPAddr] panics, instead of returning, exactly when the
    first five octets of a host part of more than four are all accepted by
    [Atoi] (the slice index runs past the four bytes), or when the host
    part has at most four octets, all accepted, and the address holds no
    colon (the port segment is indexed without a length check). *)
Theorem ResolveTCPAddr_panics_iff (network address : string) :
  (exists msg : string, ResolveTCPAddr network address = Panics msg)
  <-> (Forall numeric (take 5 (Split (hostOf address) "."))
       /\ (4 < octetCount address)%nat)
      \/ (Forall numeric (Split (hostOf address) ".")
          /\ (octetCount address <= 4)%nat
          /\ missingColon address).
Proof.
  unfold octetCount, missingColon.
  destruct (ResolveTCPAddr_cases network address)
    as [(Hex & Hr) | [(Hall & Hlen & Hr) | [(Hall & Hlen & Hp & Hr)
       | [(Hall & Hlen & p & Hp & Hbad & Hr) | (Hall & Hlen & p & Hp & Hnum & Hr)]]]];
    rewrite Hr; split.
  - intros [msg H]. discriminate.
  - intros [(Hall & _) | (Hall & _)]; exfalso.
    + apply Exists_exists in Hex. destruct Hex as (part & Hin & Hbad).
      rewrite Forall_forall in Hall. exact (numeric_nonNumeric _ (Hall _ Hin) Hbad).
    + exact (Forall_numeric_take _ _ Hall Hex).
  - intros _. left. split; assumption.
  - intros _. eexists. reflexivity.
  - intros _. right. split; [exact Hall |]. split; [exact Hlen |].
    apply lookup_ge_None in Hp. lia.
  - intros _. eexists. reflexivity.
  - intros [msg H]. discriminate.
  - intros [(_ & Hgt) | (_ & _ & Hmiss)]; [lia |].
    assert (Hnone : Split address ":" !! 1%nat = None) by (apply lookup_ge_None; lia).
    congruence.
  - intros [msg H]. discriminate.
  - intros [(_ & Hgt) | (_ & _ & Hmiss)]; [lia |].
    assert (Hnone : Split address ":" !! 1%nat = None) by (apply lookup_ge_None; lia).
    congruence.
Qed.

Example ResolveTCPAddr_sixth_octet_unread :
  ResolveTCPAddr "tcp" "1.2.3.4.5.x:80" = Panics "index out of range [4] with length 4"
  /\ ResolveTCPAddr "tcp" "1.2.3.4.x:80"
     = Returns (None, Some (errorsNew "could not parse IP")).
Proof. split; reflexivity. Qed.

(** ** The codec, both ways *)

Lemma encodeSockaddr_bytes (a : TCPAddr) (b0 b1 b2 b3 : Z) (tl : list Z) :
  IP_ a = b0 :: b1 :: b2 :: b3 :: tl ->
  is_byte b0 -> is_byte b1 -> is_byte b2 -> is_byte b3 ->
  encodeSockaddr a =
  Returns (mkSockaddrIn PF_INET (Htons (uint16 (Port a)))
             (mkInAddr (b0 + 256 * b1 + 65536 * b2 + 16777216 * b3))).
Proof.
  intros Hip H0 H1 H2 H3. unfold encodeSockaddr. rewrite Hip.
  rewrite LittleEndian_Uint32_bytes by assumption. reflexivity.
Qed.

(** The byte exchange is its own inverse. *)
Lemma Htons_Htons (v : Z) : is_uint16 v -> Htons (Htons v) = v.
Proof.
  intros Hv. rewrite (Htons_swap (Htons v)) by (apply Htons_range; exact Hv).
  rewrite (Htons_swap v) by exact Hv.
  unfold is_uint16 in Hv. change (2 ^ 16) with 65536 in Hv.
  Z.div_mod_to_equations. lia.
Qed.

Lemma Htons_fixed_iff (v : Z) :
  is_uint16 v -> (Htons v = v <-> v / 256 = v mod 256).
Proof.
  intros Hv. rewrite (Htons_swap v) by exact Hv.
  unfold is_uint16 in Hv. change (2 ^ 16) with 65536 in Hv.
  split; intros H; Z.div_mod_to_equations; lia.
Qed.

(** Four bytes are determined by the word they pack into. *)
Lemma pack_injective (b0 b1 b2 b3 c0 c1 c2 c3 : Z) :
  is_byte b0 -> is_byte b1 -> is_byte b2 -> is_byte b3 ->
  is_byte c0 -> is_byte c1 -> is_byte c2 -> is_byte c3 ->
  b0 + 256 * b1 + 65536 * b2 + 16777216 * b3
  = c0 + 256 * c1 + 65536 * c2 + 16777216 * c3 ->
  b0 = c0 /\ b1 = c1 /\ b2 = c2 /\ b3 = c3.
Proof.
  unfold is_byte. change (2 ^ 8) with 256. intros. lia.
Qed.

(** X6: for an address of four IP bytes and a port in 0..65535, decoding
    the encoded address gives back the four IP bytes, and gives back the
    port exactly when the two bytes of the port are equal; otherwise the
    decoded port is the port with its two bytes exchanged. *)
Theorem codec_roundtrip_iff (a : TCPAddr) (b0 b1 b2 b3 : Z) :
  IP_ a = [b0; b1; b2; b3] ->
  is_byte b0 -> is_byte b1 -> is_byte b2 -> is_byte b3 ->
  0 <= Port a < 65536 ->
  exists sa : SockaddrIn,
    encodeSockaddr a = Returns sa
    /\ IP_ (decodeSockaddr sa) = IP_ a
    /\ Port (decodeSockaddr sa) = 256 * (Port a mod 256) + Port a / 256
    /\ (Port (decodeSockaddr sa) = Port a <-> Port a / 256 = Port a mod 256).
Proof.
  intros Hip H0 H1 H2 H3 Hp.
  assert (Hu : uint16 (Port a) = Port a).
  { unfold uint16. apply Z.mod_small. change (2 ^ 16) with 65536. lia. }
  assert (Hr : is_uint16 (Port a)).
  { unfold is_uint16. change (2 ^ 16) with 65536. lia. }
  eexists. split; [apply (encodeSockaddr_bytes a b0 b1 b2 b3 []); assumption |].
  unfold decodeSockaddr. cbn [SinAddr SAddr SinPort IP_ Port].
  rewrite Hu. split; [| split].
  - rewrite Hip. apply decode_bytes; assumption.
  - apply Htons_swap. exact Hr.
  - apply Htons_fixed_iff. exact Hr.
Qed.

Lemma codec_roundtrip_iff_witness :
  exists sa : SockaddrIn,
    encodeSockaddr (mkTCPAddr "10.0.0.2:257" [10; 0; 0; 2] 257 "") = Returns sa
    /\ IP_ (decodeSockaddr sa) = [10; 0; 0; 2]
    /\ Port (decodeSockaddr sa) = 256 * (257 mod 256) + 257 / 256
    /\ (Port (decodeSockaddr sa) = 257 <-> 257 / 256 = 257 mod 256).
Proof.
  apply (codec_roundtrip_iff (mkTCPAddr "10.0.0.2:257" [10; 0; 0; 2] 257 "") 10 0 0 2);
    [reflexivity | | | | |]; unfold is_byte; simpl; lia.
Defined.

(** X7: two addresses of four IP bytes each have the same encoding
    exactly when their IP bytes are the same and their ports are congruent
    modulo 65536; the text and the zone play no part. *)
Theorem encodeSockaddr_eq_iff (a a' : TCPAddr) :
  length (IP_ a) = 4%nat -> Forall is_byte (IP_ a) ->
  length (IP_ a') = 4%nat -> Forall is_byte (IP_ a') ->
  (encodeSockaddr a = encodeSockaddr a'
   <-> IP_ a = IP_ a' /\ Port a mod 65536 = Port a' mod 65536).
Proof.
  intros Hl Hb Hl' Hb'.
  destruct a as [sa ip port zone], a' as [sa' ip' port' zone']. cbn [IP_ Port] in *.
  destruct ip as [| b0 [| b1 [| b2 [| b3 [| b4 tl]]]]]; simpl in Hl; try lia.
  destruct ip' as [| c0 [| c1 [| c2 [| c3 [| c4 tl']]]]]; simpl in Hl'; try lia.
  inversion Hb as [| ? ? B0 Hb1]; subst. inversion Hb1 as [| ? ? B1 Hb2]; subst.
  inversion Hb2 as [| ? ? B2 Hb3]; subst. inversion Hb3 as [| ? ? B3 _]; subst.
  inversion Hb' as [| ? ? C0 Hc1]; subst. inversion Hc1 as [| ? ? C1 Hc2]; subst.
  inversion Hc2 as [| ? ? C2 Hc3]; subst. inversion Hc3 as [| ? ? C3 _]; subst.
  rewrite (encodeSockaddr_bytes _ b0 b1 b2 b3 []) by (try reflexivity; assumption).
  rewrite (encodeSockaddr_bytes _ c0 c1 c2 c3 []) by (try reflexivity; assumption).
  cbn [Port]. unfold uint16. change (2 ^ 16) with 65536. split.
  - intros H. inversion H as [[Hport Haddr]].
    destruct (pack_injective _ _ _ _ _ _ _ _ B0 B1 B2 B3 C0 C1 C2 C3 Haddr)
      as (-> & -> & -> & ->).
    split; [reflexivity |].
    rewrite <- (Htons_Htons (port mod 65536)) by (apply uint16_range).
    rewrite <- (Htons_Htons (port' mod 65536)) by (apply uint16_range).
    rewrite Hport. reflexivity.
  - intros [Hip Hport]. inversion Hip. subst. rewrite Hport. reflexivity.
Qed.

Lemma encodeSockaddr_eq_iff_witness :
  encodeSockaddr (mkTCPAddr "1.2.3.4:70000" [1; 2; 3; 4] 70000 "")
  = encodeSockaddr (mkTCPAddr "1.2.3.4:4464" [1; 2; 3; 4] 4464 "z")
  <-> [1; 2; 3; 4] = [1; 2; 3; 4] /\ 70000 mod 65536 = 4464 mod 65536.
Proof.
  apply (encodeSockaddr_eq_iff
           (mkTCPAddr "1.2.3.4:70000" [1; 2; 3; 4] 70000 "")
           (mkTCPAddr "1.2.3.4:4464" [1; 2; 3; 4] 4464 "z"));
    try reflexivity;
    repeat constructor; unfold is_byte; simpl; lia.
Defined.

(** The bytes taken out of any word are four, each in range. *)
Lemma decodeSockaddr_wf (sa : SockaddrIn) :
  length (IP_ (decodeSockaddr sa)) = 4%nat
  /\ Forall is_byte (IP_ (decodeSockaddr sa)).
Proof.
  split; [reflexivity |].
  unfold decodeSockaddr. cbn [IP_]. repeat constructor; apply byte_range.
Qed.

(** X8: encoding the address decoded from a socket address whose address
    word and port fit 32 and 16 bits gives the same address word, the
    family PF_INET whatever the family was, and the port with its two
    bytes exchanged: an accepted peer's address, dialed again, names
    another port unless the port's two bytes are equal. *)
Theorem encode_decoded (sa : SockaddrIn) :
  0 <= SAddr (SinAddr sa) < 2 ^ 32 ->
  0 <= SinPort sa < 2 ^ 16 ->
  encodeSockaddr (decodeSockaddr sa)
  = Returns (mkSockaddrIn PF_INET
               (256 * (SinPort sa mod 256) + SinPort sa / 256)
               (mkInAddr (SAddr (SinAddr sa)))).
Proof.
  intros Hs Hp. destruct sa as [fam port [s]]. cbn [SAddr SinAddr SinPort] in *.
  unfold decodeSockaddr. cbn [SAddr SinAddr SinPort].
  rewrite (encodeSockaddr_bytes _ (byte s) (byte (Z.shiftr s 8))
             (byte (Z.shiftr s 16)) (byte (Z.shiftr s 24)) [])
    by (try reflexivity; apply byte_range).
  cbn [Port].
  assert (Hu : uint16 port = port) by (apply Z.mod_small; exact Hp).
  rewrite Hu, Htons_swap by exact Hp.
  do 3 f_equal. unfold byte. rewrite !Z.shiftr_div_pow2 by lia.
  change (2 ^ 8) with 256. change (2 ^ 16) with 65536.
  change (2 ^ 24) with 16777216. change (2 ^ 32) with 4294967296 in Hs.
  Z.div_mod_to_equations. lia.
Qed.

Lemma encode_decoded_witness :
  encodeSockaddr (decodeSockaddr (mkSockaddrIn 0 40000 (mkInAddr 33554442)))
  = Returns (mkSockaddrIn PF_INET (256 * (40000 mod 256) + 40000 / 256)
               (mkInAddr 33554442)).
Proof.
  apply (encode_decoded (mkSockaddrIn 0 40000 (mkInAddr 33554442)));
    simpl; lia.
Defined.

(** ** Listening and dialing against any provider *)

Lemma LittleEndian_Uint32_returns (b : list Z) :
  (4 <= length b)%nat -> exists s : Z, LittleEndian_Uint32 b = Returns s.
Proof.
  intros H. destruct b as [| b0 [| b1 [| b2 [| b3 tl]]]]; simpl in H; try lia.
  eexists. reflexivity.
Qed.

Lemma LittleEndian_Uint32_panics (b : list Z) :
  (length b < 4)%nat -> exists msg : string, LittleEndian_Uint32 b = Panics msg.
Proof.
  intros H. destruct b as [| b0 [| b1 [| b2 [| b3 tl]]]]; simpl in H; try lia;
    eexists; reflexivity.
Qed.

Lemma encodeSockaddr_returns_iff (a : TCPAddr) :
  (exists sa : SockaddrIn, encodeSockaddr a = Returns sa) <-> (4 <= length (IP_ a))%nat.
Proof.
  unfold encodeSockaddr. split.
  - intros [sa H]. destruct (decide (4 <= length (IP_ a))%nat) as [Hle | Hgt]; [exact Hle |].
    destruct (LittleEndian_Uint32_panics (IP_ a) ltac:(lia)) as [msg Hm].
    rewrite Hm in H. discriminate.
  - intros H. destruct (LittleEndian_Uint32_returns (IP_ a) H) as [s Hs].
    rewrite Hs. eexists. reflexivity.
Qed.

(** [ListenTCP] and [DialTCP] on an address that encodes. *)
Lemma run_ListenTCP {W : Type} (h : handler W) (w : W)
      (network : string) (a : TCPAddr) (sa : SockaddrIn) :
  encodeSockaddr a = Returns sa ->
  let '((fd, e1), w1) := h (CSocket PF_INET SOCK_STREAM 0) w in
  let '(e2, w2) := h (CBind fd sa) w1 in
  let '(e3, w3) := h (CListen fd 5) w2 in
  run h (ListenTCP network (Some a)) w =
  match e1, e2, e3 with
  | Some e, _, _ =>
      (Returns (None, Some (providerError (perrorText e))),
       w1, [CSocket PF_INET SOCK_STREAM 0])
  | None, Some e, _ =>
      (Returns (None, Some (providerError (perrorText e))),
       w2, [CSocket PF_INET SOCK_STREAM 0; CBind fd sa])
  | None, None, Some e =>
      (Returns (None, Some (providerError (perrorText e))),
       w3, [CSocket PF_INET SOCK_STREAM 0; CBind fd sa; CListen fd 5])
  | None, None, None =>
      (Returns (Some (mkTCPListener fd (Some a)), None),
       w3, [CSocket PF_INET SOCK_STREAM 0; CBind fd sa; CListen fd 5])
  end.
Proof.
  intros Henc. unfold ListenTCP. cbn -[encodeSockaddr PF_INET SOCK_STREAM].
  rewrite Henc. cbn -[PF_INET SOCK_STREAM].
  destruct (h (CSocket PF_INET SOCK_STREAM 0) w) as [[fd e1] w1].
  destruct (h (CBind fd sa) w1) as [e2 w2] eqn:H2.
  destruct (h (CListen fd 5) w2) as [e3 w3] eqn:H3.
  destruct e1 as [e |]; cbn -[PF_INET SOCK_STREAM]; [reflexivity |].
  rewrite H2. destruct e2 as [e |]; cbn -[PF_INET SOCK_STREAM]; [reflexivity |].
  rewrite H3. destruct e3 as [e |]; reflexivity.
Qed.

Lemma run_DialTCP {W : Type} (h : handler W) (w : W)
      (network : string) (la : option TCPAddr) (a : TCPAddr) (sa : SockaddrIn) :
  encodeSockaddr a = Returns sa ->
  let '((fd, e1), w1) := h (CSocket PF_INET SOCK_STREAM 0) w in
  let '(e2, w2) := h (CConnect fd sa) w1 in
  run h (DialTCP network la (Some a)) w =
  match e1, e2 with
  | Some e, _ =>
      (Returns (None, Some (providerError (perrorText e))),
       w1, [CSocket PF_INET SOCK_STREAM 0])
  | None, Some e =>
      (Returns (None, Some (providerError (perrorText e))),
       w2, [CSocket PF_INET SOCK_STREAM 0; CConnect fd sa])
  | None, None =>
      (Returns (Some (mkTCPConn fd la (Some a)), None),
       w2, [CSocket PF_INET SOCK_STREAM 0; CConnect fd sa])
  end.
Proof.
  intros Henc. unfold DialTCP. cbn -[encodeSockaddr PF_INET SOCK_STREAM].
  rewrite Henc. cbn -[PF_INET SOCK_STREAM].
  destruct (h (CSocket PF_INET SOCK_STREAM 0) w) as [[fd e1] w1].
  destruct (h (CConnect fd sa) w1) as [e2 w2] eqn:H2.
  destruct e1 as [e |]; cbn -[PF_INET SOCK_STREAM]; [reflexivity |].
  rewrite H2. destruct e2 as [e |]; reflexivity.
Qed.

Lemma run_encode_panics {W : Type} (h : handler W) (w : W)
      (network : string) (la : option TCPAddr) (a : TCPAddr) (msg : string) :
  encodeSockaddr a = Panics msg ->
  run h (ListenTCP network (Some a)) w = (Panics msg, w, [])
  /\ run h (DialTCP network la (Some a)) w = (Panics msg, w, []).
Proof.
  intros Henc. unfold ListenTCP, DialTCP.
  cbn -[encodeSockaddr PF_INET SOCK_STREAM]. rewrite Henc. split; reflexivity.
Qed.

(** X9: [ListenTCP] and [DialTCP] panic exactly when the address to encode
    is nil or its IP slice has fewer than four bytes, and they do so
    before the first call to the provider; with four bytes or more they
    never panic. *)
Theorem ListenTCP_DialTCP_panic_iff {W : Type} (h : handler W) (w : W)
        (network : string) (laddr raddr : option TCPAddr) :
  ((exists msg : string, result (run h (ListenTCP network laddr) w) = Panics msg)
   <-> match laddr with
       | None => True
       | Some a => (length (IP_ a) < 4)%nat
       end)
  /\ ((exists msg : string, result (run h (DialTCP network laddr raddr) w) = Panics msg)
      <-> match raddr with
          | None => True
          | Some a => (length (IP_ a) < 4)%nat
          end)
  /\ ((exists msg : string, result (run h (ListenTCP network laddr) w) = Panics msg) ->
      calls (run h (ListenTCP network laddr) w) = [])
  /\ ((exists msg : string, result (run h (DialTCP network laddr raddr) w) = Panics msg) ->
      calls (run h (DialTCP network laddr raddr) w) = []).
Proof.
  assert (HL : forall a : TCPAddr,
             (length (IP_ a) < 4)%nat ->
             exists msg, run h (ListenTCP network (Some a)) w = (Panics msg, w, [])
                         /\ run h (DialTCP network laddr (Some a)) w = (Panics msg, w, [])).
  { intros a Hlen. unfold encodeSockaddr.
    destruct (LittleEndian_Uint32_panics (IP_ a) Hlen) as [msg Hm].
    exists msg. apply run_encode_panics. unfold encodeSockaddr. rewrite Hm. reflexivity. }
  assert (HLok : forall a : TCPAddr,
             (4 <= length (IP_ a))%nat ->
             (forall msg, result (run h (ListenTCP network (Some a)) w) <> Panics msg)
             /\ (forall msg, result (run h (DialTCP network laddr (Some a)) w) <> Panics msg)).
  { intros a Hlen. apply encodeSockaddr_returns_iff in Hlen. destruct Hlen as [sa Hsa].
    pose proof (run_ListenTCP h w network a sa Hsa) as HrL.
    pose proof (run_DialTCP h w network laddr a sa Hsa) as HrD.
    destruct (h (CSocket PF_INET SOCK_STREAM 0) w) as [[fd e1] w1].
    destruct (h (CBind fd sa) w1) as [e2 w2].
    destruct (h (CListen fd 5) w2) as [e3 w3].
    destruct (h (CConnect fd sa) w1) as [e2' w2'].
    split; intros msg.
    - rewrite HrL. destruct e1, e2, e3; discriminate.
    - rewrite HrD. destruct e1, e2'; discriminate. }
  repeat split.
  - intros [msg H]. destruct laddr as [a |]; [| exact I].
    destruct (decide (length (IP_ a) < 4)%nat) as [Hlt | Hge]; [exact Hlt |].
    exfalso. exact (proj1 (HLok a ltac:(lia)) msg H).
  - intros H. destruct laddr as [a |].
    + destruct (HL a H) as (msg & Hr & _). exists msg. rewrite Hr. reflexivity.
    + eexists. reflexivity.
  - intros [msg H]. destruct raddr as [a |]; [| exact I].
    destruct (decide (length (IP_ a) < 4)%nat) as [Hlt | Hge]; [exact Hlt |].
    exfalso. exact (proj2 (HLok a ltac:(lia)) msg H).
  - intros H. destruct raddr as [a |].
    + destruct (HL a H) as (msg & _ & Hr). exists msg. rewrite Hr. reflexivity.
    + eexists. reflexivity.
  - intros [msg H]. destruct laddr as [a |]; [| reflexivity].
    destruct (decide (length (IP_ a) < 4)%nat) as [Hlt | Hge].
    + destruct (HL a Hlt) as (msg' & Hr & _). rewrite Hr. reflexivity.
    + exfalso. exact (proj1 (HLok a ltac:(lia)) msg H).
  - intros [msg H]. destruct raddr as [a |]; [| reflexivity].
    destruct (decide (length (IP_ a) < 4)%nat) as [Hlt | Hge].
    + destruct (HL a Hlt) as (msg' & _ & Hr). rewrite Hr. reflexivity.
    + exfalso. exact (proj2 (HLok a ltac:(lia)) msg H).
Qed.

Example ListenTCP_three_bytes :
  run (okProvider zeroSockaddrIn 0) (ListenTCP "tcp" (Some (mkTCPAddr "" [10; 0; 0] 80 ""))) 3
  = (Panics "index out of range [3]", 3, []).
Proof. reflexivity. Qed.

Example ListenTCP_five_bytes :
  calls (run (okProvider zeroSockaddrIn 0)
             (ListenTCP "tcp" (Some (mkTCPAddr "" [10; 0; 0; 2; 99] 80 ""))) 3)
  = [CSocket 2 1 0; CBind 3 (mkSockaddrIn 2 20480 (mkInAddr 33554442)); CListen 3 5].
Proof. reflexivity. Qed.

Lemma run_Listen_resolved {W : Type} (h : handler W) (w : W)
      (network address : string) (a : TCPAddr) :
  ResolveTCPAddr network address = Returns (Some a, None) ->
  run h (Listen network address) w =
  let '(r, w1, tr) := run h (ListenTCP network (Some a)) w in
  match r with
  | Returns (l, err) => (Returns (ListenerPointer l, err), w1, tr)
  | Panics msg => (Panics msg, w1, tr)
  end.
Proof.
  intros Hres. unfold Listen. unfold mbind at 1, prog_bind at 1.
  rewrite run_lift_bind, Hres. cbn match beta.
  unfold mbind, prog_bind. rewrite run_bind.
  destruct (run h (ListenTCP network (Some a)) w) as [[[[l err] | msg] w1] tr].
  - cbn. rewrite app_nil_r. reflexivity.
  - reflexivity.
Qed.

Lemma run_Dial_resolved {W : Type} (h : handler W) (w : W)
      (network address : string) (a : TCPAddr) :
  ResolveTCPAddr network address = Returns (Some a, None) ->
  run h (Dial network address) w =
  let '(r, w1, tr) := run h (DialTCP network None (Some a)) w in
  match r with
  | Returns (_, Some e) => (Returns (zeroTCPConn, Some e), w1, tr)
  | Returns (Some c, None) => (Returns (c, None), w1, tr)
  | Returns (None, None) => (Panics "nil pointer dereference", w1, tr)
  | Panics msg => (Panics msg, w1, tr)
  end.
Proof.
  intros Hres. unfold Dial. unfold mbind at 1, prog_bind at 1.
  rewrite run_lift_bind, Hres. cbn match beta.
  unfold mbind, prog_bind. rewrite run_bind.
  destruct (run h (DialTCP network None (Some a)) w) as [[[[c err] | msg] w1] tr].
  - destruct c as [c |], err as [e |]; cbn; rewrite app_nil_r; reflexivity.
  - reflexivity.
Qed.

(** Without a resolved address neither function reaches the provider. *)
Lemma calls_Listen_Dial_unresolved {W : Type} (h : handler W) (w : W)
      (network address : string) :
  (forall a : TCPAddr, ResolveTCPAddr network address <> Returns (Some a, None)) ->
  calls (run h (Listen network address) w) = []
  /\ calls (run h (Dial network address) w) = [].
Proof.
  intros Hno. unfold Listen, Dial. unfold mbind at 1 3, prog_bind at 1 3.
  rewrite !run_lift_bind.
  destruct (ResolveTCPAddr network address) as [[[a |] [e |]] | msg] eqn:Hres;
    try (split; reflexivity).
  exfalso. exact (Hno a eq_refl).
Qed.

(** X10: [Listen] and [Dial] never shut a descriptor down: when the socket
    was created and the bind, listen or connect step then fails, the
    descriptor is left open.  [Listen] makes at most three calls and
    [Dial] at most two. *)
Theorem Listen_Dial_never_shutdown {W : Type} (h : handler W) (w : W)
        (network address : string) :
  (Forall (fun c => isShutdown c = false) (calls (run h (Listen network address) w))
   /\ (length (calls (run h (Listen network address) w)) <= 3)%nat)
  /\ (Forall (fun c => isShutdown c = false) (calls (run h (Dial network address) w))
      /\ (length (calls (run h (Dial network address) w)) <= 2)%nat).
Proof.
  destruct (ResolveTCPAddr network address) as [[[a |] [e |]] | msg] eqn:Hres.
  2:{ (* resolved *)
      destruct (codec_on_resolved _ _ _ Hres) as (sa & Henc & _).
      rewrite (run_Listen_resolved h w _ _ _ Hres), (run_Dial_resolved h w _ _ _ Hres).
      pose proof (run_ListenTCP h w network a sa Henc) as HrL.
      pose proof (run_DialTCP h w network None a sa Henc) as HrD.
      destruct (h (CSocket PF_INET SOCK_STREAM 0) w) as [[fd e1] w1].
      destruct (h (CBind fd sa) w1) as [e2 w2].
      destruct (h (CListen fd 5) w2) as [e3 w3].
      destruct (h (CConnect fd sa) w1) as [e2' w2'].
      rewrite HrL, HrD. split.
      - destruct e1, e2, e3; cbn; (split; [repeat constructor | lia]).
      - destruct e1, e2'; cbn; (split; [repeat constructor | lia]). }
  all: destruct (calls_Listen_Dial_unresolved h w network address) as [HL HD];
    [intros a' Ha; rewrite Hres in Ha; discriminate |];
    rewrite HL, HD; repeat split; try constructor; simpl; lia.
Qed.

Example Listen_bind_fails_leak :
  calls (run (failAt 1 (mkPerror "address in use")) (Listen "tcp" "127.0.0.1:1234") 0)
  = [CSocket 2 1 0; CBind 3 (mkSockaddrIn 2 53764 (mkInAddr 16777343))].
Proof. reflexivity. Qed.

(** [AcceptTCP] on a listener that holds an address. *)
Lemma run_AcceptTCP {W : Type} (h : handler W) (w : W) (l : TCPListener) (la : TCPAddr) :
  addr l = Some la ->
  let '((fd', e, peer), w1) := h (CAccept (lfd l) zeroSockaddrIn) w in
  run h (AcceptTCP l) w =
  match e with
  | Some e =>
      (Returns (None, Some (providerError (perrorText e))), w1,
       [CAccept (lfd l) zeroSockaddrIn])
  | None =>
      (Returns (Some (mkTCPConn fd'
                        (Some (mkTCPAddr "" (IP_ la) (Port la) ""))
                        (Some (decodeSockaddr peer))), None), w1,
       [CAccept (lfd l) zeroSockaddrIn])
  end.
Proof.
  intros Hl. unfold AcceptTCP. cbn.
  destruct (h (CAccept (lfd l) zeroSockaddrIn) w) as [[[fd' e] peer] w1].
  cbn. destruct e as [e |]; cbn; [reflexivity |]. rewrite Hl. reflexivity.
Qed.

(** The listener of a successful [Listen]. *)
Lemma Listen_success_inv {W : Type} (h : handler W) (w : W)
      (network address : string) (l : TCPListener) :
  result (run h (Listen network address) w) = Returns (ListenerPointer (Some l), None) ->
  exists a : TCPAddr,
    ResolveTCPAddr network address = Returns (Some a, None)
    /\ addr l = Some a.
Proof.
  intros H.
  destruct (ResolveTCPAddr network address) as [[[a |] [e |]] | msg] eqn:Hres.
  2:{ exists a. split; [reflexivity |].
      destruct (codec_on_resolved _ _ _ Hres) as (sa & Henc & _).
      rewrite (run_Listen_resolved h w _ _ _ Hres) in H.
      pose proof (run_ListenTCP h w network a sa Henc) as HrL.
      destruct (h (CSocket PF_INET SOCK_STREAM 0) w) as [[fd e1] w1].
      destruct (h (CBind fd sa) w1) as [e2 w2].
      destruct (h (CListen fd 5) w2) as [e3 w3].
      rewrite HrL in H.
      destruct e1, e2, e3; cbn in H; inversion H; reflexivity. }
  all: exfalso; unfold Listen in H; unfold mbind at 1, prog_bind at 1 in H;
    rewrite run_lift_bind, Hres in H; cbn in H; discriminate.
Qed.

(** X11: on the listener of a successful [Listen], [AcceptTCP] never
    panics: it hands the provider a zeroed socket address on the listening
    descriptor and returns either the provider's error without a
    connection, or a connection on the new descriptor whose local address
    has the IP and port the listener was resolved to, with an empty text,
    and whose remote address is decoded from what the provider filled
    in. *)
Theorem Listen_then_Accept {W W' : Type} (h : handler W) (w : W)
        (h' : handler W') (w' : W')
        (network address : string) (l : TCPListener) :
  result (run h (Listen network address) w) = Returns (ListenerPointer (Some l), None) ->
  exists a : TCPAddr,
    ResolveTCPAddr network address = Returns (Some a, None) /\
    let '((fd', e, peer), w1) := h' (CAccept (lfd l) zeroSockaddrIn) w' in
    run h' (AcceptTCP l) w' =
    match e with
    | Some e =>
        (Returns (None, Some (providerError (perrorText e))), w1,
         [CAccept (lfd l) zeroSockaddrIn])
    | None =>
        (Returns (Some (mkTCPConn fd'
                          (Some (mkTCPAddr "" (IP_ a) (Port a) ""))
                          (Some (decodeSockaddr peer))), None), w1,
         [CAccept (lfd l) zeroSockaddrIn])
    end.
Proof.
  intros H. destruct (Listen_success_inv h w network address l H) as (a & Hres & Hl).
  exists a. split; [exact Hres |]. apply run_AcceptTCP. exact Hl.
Qed.

Lemma Listen_then_Accept_witness :
  exists a : TCPAddr,
    ResolveTCPAddr "tcp" "127.0.0.1:1234" = Returns (Some a, None) /\
    let l := mkTCPListener 3 (Some (mkTCPAddr "127.0.0.1:1234" [127; 0; 0; 1] 1234 "")) in
    let '((fd', e, peer), w1) :=
      okProvider (mkSockaddrIn 2 40000 (mkInAddr 33554442)) 0
                 (CAccept (lfd l) zeroSockaddrIn) 4 in
    run (okProvider (mkSockaddrIn 2 40000 (mkInAddr 33554442)) 0) (AcceptTCP l) 4 =
    match e with
    | Some e =>
        (Returns (None, Some (providerError (perrorText e))), w1,
         [CAccept (lfd l) zeroSockaddrIn])
    | None =>
        (Returns (Some (mkTCPConn fd'
                          (Some (mkTCPAddr "" (IP_ a) (Port a) ""))
                          (Some (decodeSockaddr peer))), None), w1,
         [CAccept (lfd l) zeroSockaddrIn])
    end.
Proof.
  apply (Listen_then_Accept (okProvider zeroSockaddrIn 0) 3
           (okProvider (mkSockaddrIn 2 40000 (mkInAddr 33554442)) 0) 4
           "tcp" "127.0.0.1:1234"
           (mkTCPListener 3 (Some (mkTCPAddr "127.0.0.1:1234" [127; 0; 0; 1] 1234 "")))).
  reflexivity.
Defined.

(** X12: the listener of a successful [Listen] reports, through [Addr],
    an address whose [String] is the address text passed to [Listen] and
    whose [Network] is "tcp", whatever network name was passed; the local
    address of a connection it accepts has the empty [String]. *)
Theorem Listen_Addr_String {W W' : Type} (h : handler W) (w : W)
        (h' : handler W') (w' : W')
        (network address : string) (l : TCPListener) :
  result (run h (Listen network address) w) = Returns (ListenerPointer (Some l), None) ->
  (exists a : TCPAddr,
     TCPListener_Addr l = Some a
     /\ TCPAddr_String a = address
     /\ TCPAddr_Network a = "tcp")
  /\ (forall c : TCPConn,
        result (run h' (AcceptTCP l) w') = Returns (Some c, None) ->
        exists la : TCPAddr,
          TCPConn_LocalAddr c = Some la /\ TCPAddr_String la = "").
Proof.
  intros H. destruct (Listen_success_inv h w network address l H) as (a & Hres & Hl).
  split.
  - exists a. split; [exact Hl |]. split; [| reflexivity].
    apply ResolveTCPAddr_returns in Hres. unfold TCPAddr_String. tauto.
  - intros c Hc. pose proof (run_AcceptTCP h' w' l a Hl) as Hr.
    destruct (h' (CAccept (lfd l) zeroSockaddrIn) w') as [[[fd' e] peer] w1].
    rewrite Hr in Hc. destruct e as [e |]; cbn in Hc; inversion Hc.
    eexists. split; reflexivity.
Qed.

Lemma Listen_Addr_String_witness :
  let l := mkTCPListener 3 (Some (mkTCPAddr "127.0.0.1:1234" [127; 0; 0; 1] 1234 "")) in
  (exists a : TCPAddr,
     TCPListener_Addr l = Some a
     /\ TCPAddr_String a = "127.0.0.1:1234"
     /\ TCPAddr_Network a = "tcp")
  /\ (forall c : TCPConn,
        result (run (okProvider zeroSockaddrIn 0) (AcceptTCP l) 4) = Returns (Some c, None) ->
        exists la : TCPAddr,
          TCPConn_LocalAddr c = Some la /\ TCPAddr_String la = "").
Proof.
  apply (Listen_Addr_String (okProvider zeroSockaddrIn 0) 3
           (okProvider zeroSockaddrIn 0) 4 "udp" "127.0.0.1:1234"
           (mkTCPListener 3 (Some (mkTCPAddr "127.0.0.1:1234" [127; 0; 0; 1] 1234 "")))).
  reflexivity.
Defined.

(** ** Closing, and what a failed [Dial] or [Listen] hands back *)

Lemma run_Shutdown {W : Type} (h : handler W) (w : W) (fd how : Z) :
  run h (Shutdown fd how) w =
  let '(e, w1) := h (CShutdown fd how) w in
  (Returns (fromProvider e), w1, [CShutdown fd how]).
Proof.
  unfold Shutdown. cbn. destruct (h (CShutdown fd how) w) as [e w1]. reflexivity.
Qed.

(** X13: [Close] makes one Shutdown call for both directions on the
    connection's descriptor and returns the provider's error as it is; it
    leaves no mark on the connection, so a second [Close], a [Read] or a
    [Write] after it goes to the provider again, on the same descriptor. *)
Theorem use_after_Close {W : Type} (h : handler W) (w : W)
        (c : TCPConn) (b : list Z) :
  (let '(e, w1) := h (CShutdown (fd c) SHUT_RDWR) w in
   run h (TCPConn_Close c) w
   = (Returns (fromProvider e), w1, [CShutdown (fd c) SHUT_RDWR]))
  /\ calls (run h (_ ← TCPConn_Close c; TCPConn_Close c) w)
     = [CShutdown (fd c) SHUT_RDWR; CShutdown (fd c) SHUT_RDWR]
  /\ calls (run h (_ ← TCPConn_Close c; TCPConn_Read c b) w)
     = [CShutdown (fd c) SHUT_RDWR;
        CRecv (fd c) (make (length b)) (uint32 (len b)) 0]
  /\ calls (run h (_ ← TCPConn_Close c; TCPConn_Write c b) w)
     = [CShutdown (fd c) SHUT_RDWR; CSend (fd c) b 0].
Proof.
  split; [| split; [| split]].
  - unfold TCPConn_Close. rewrite run_Shutdown.
    destruct (h (CShutdown (fd c) SHUT_RDWR) w) as [e w1]. reflexivity.
  - unfold mbind, prog_bind. rewrite run_bind.
    unfold TCPConn_Close. rewrite run_Shutdown.
    destruct (h (CShutdown (fd c) SHUT_RDWR) w) as [e w1].
    rewrite run_Shutdown.
    destruct (h (CShutdown (fd c) SHUT_RDWR) w1) as [e2 w2]. reflexivity.
  - unfold mbind at 1, prog_bind at 1. rewrite run_bind.
    unfold TCPConn_Close. rewrite run_Shutdown.
    destruct (h (CShutdown (fd c) SHUT_RDWR) w) as [e w1].
    unfold TCPConn_Read. cbn -[SHUT_RDWR make uint32 len].
    destruct (h (CRecv (fd c) (make (length b)) (uint32 (len b)) 0) w1)
      as [[[n perr] readMsg] w2].
    cbn -[SHUT_RDWR make uint32 len].
    destruct (n =? 0); reflexivity.
  - unfold mbind at 1, prog_bind at 1. rewrite run_bind.
    unfold TCPConn_Close. rewrite run_Shutdown.
    destruct (h (CShutdown (fd c) SHUT_RDWR) w) as [e w1].
    unfold TCPConn_Write. cbn -[SHUT_RDWR].
    destruct (h (CSend (fd c) b 0) w1) as [[n perr] w2].
    cbn -[SHUT_RDWR].
    destruct (n =? 0); reflexivity.
Qed.

(** X14: whenever [Dial] returns an error, the connection returned with it
    is the zero connection, with descriptor 0 and no addresses; closing
    that connection shuts descriptor 0 down. *)
Theorem Dial_error_zero_conn {W W' : Type} (h : handler W) (w : W)
        (h' : handler W') (w' : W')
        (network address : string) (c : TCPConn) (e : error) :
  result (run h (Dial network address) w) = Returns (c, Some e) ->
  c = zeroTCPConn
  /\ calls (run h' (TCPConn_Close c) w') = [CShutdown 0 SHUT_RDWR].
Proof.
  intros H.
  assert (Hc : c = zeroTCPConn).
  { destruct (ResolveTCPAddr network address) as [[[a |] [e0 |]] | msg] eqn:Hres.
    2:{ destruct (codec_on_resolved _ _ _ Hres) as (sa & Henc & _).
        rewrite (run_Dial_resolved h w _ _ _ Hres) in H.
        pose proof (run_DialTCP h w network None a sa Henc) as HrD.
        destruct (h (CSocket PF_INET SOCK_STREAM 0) w) as [[fd e1] w1].
        destruct (h (CConnect fd sa) w1) as [e2 w2].
        rewrite HrD in H.
        destruct e1, e2; cbn in H; inversion H; reflexivity. }
    all: unfold Dial in H; unfold mbind at 1, prog_bind at 1 in H;
      rewrite run_lift_bind, Hres in H; cbn in H; inversion H; reflexivity. }
  split; [exact Hc |]. subst c.
  unfold TCPConn_Close. rewrite run_Shutdown. cbn [fd zeroTCPConn].
  destruct (h' (CShutdown 0 SHUT_RDWR) w') as [e1 w1]. reflexivity.
Qed.

Lemma Dial_error_zero_conn_witness :
  zeroTCPConn = zeroTCPConn
  /\ calls (run (okProvider zeroSockaddrIn 0) (TCPConn_Close zeroTCPConn) 9)
     = [CShutdown 0 SHUT_RDWR].
Proof.
  apply (Dial_error_zero_conn (failAt 1 (mkPerror "connection refused")) 0
           (okProvider zeroSockaddrIn 0) 9 "tcp" "127.0.0.1:1234"
           zeroTCPConn (providerError "connection refused")).
  reflexivity.
Defined.

Lemma run_Listen_unresolved {W : Type} (h : handler W) (w : W)
      (network address : string) :
  (forall a : TCPAddr, ResolveTCPAddr network address <> Returns (Some a, None)) ->
  run h (Listen network address) w =
  match ResolveTCPAddr network address with
  | Returns (_, Some e) => (Returns (ListenerValue zeroTCPListener, Some e), w, [])
  | Returns (_, None) => (Panics "nil pointer dereference", w, [])
  | Panics msg => (Panics msg, w, [])
  end.
Proof.
  intros Hno. unfold Listen. unfold mbind at 1, prog_bind at 1.
  rewrite run_lift_bind.
  destruct (ResolveTCPAddr network address) as [[[a |] [e |]] | msg] eqn:Hres;
    try reflexivity.
  exfalso. exact (Hno a eq_refl).
Qed.

(** X15: whenever [Listen] returns an error, what comes with it depends on
    where the error arose: a resolve error comes with the zero
    [TCPListener] struct and without any call to the provider, an error of
    the provider comes with the nil pointer.  No other pairing occurs. *)
Theorem Listen_error_shapes {W : Type} (h : handler W) (w : W)
        (network address : string) (lis : Listener) (e : error) :
  result (run h (Listen network address) w) = Returns (lis, Some e) ->
  (lis = ListenerValue zeroTCPListener
   /\ (exists r, ResolveTCPAddr network address = Returns (r, Some e))
   /\ calls (run h (Listen network address) w) = [])
  \/ (lis = ListenerPointer None
      /\ (exists text : string, e = providerError text)
      /\ (exists a, ResolveTCPAddr network address = Returns (Some a, None))
      /\ calls (run h (Listen network address) w) <> []).
Proof.
  intros H.
  destruct (ResolveTCPAddr network address) as [[[a |] [e0 |]] | msg] eqn:Hres.
  2:{ right.
      destruct (codec_on_resolved _ _ _ Hres) as (sa & Henc & _).
      rewrite (run_Listen_resolved h w _ _ _ Hres) in H |- *.
      pose proof (run_ListenTCP h w network a sa Henc) as HrL.
      destruct (h (CSocket PF_INET SOCK_STREAM 0) w) as [[fd e1] w1].
      destruct (h (CBind fd sa) w1) as [e2 w2].
      destruct (h (CListen fd 5) w2) as [e3 w3].
      rewrite HrL in H |- *.
      destruct e1 as [p1 |], e2 as [p2 |], e3 as [p3 |]; cbn in H |- *; inversion H;
        (split; [reflexivity |]); (split; [eexists; reflexivity |]);
        (split; [eexists; reflexivity | discriminate]). }
  all: rewrite (run_Listen_unresolved h w network address) in H |- *
      by (intros a' Ha; rewrite Hres in Ha; discriminate);
    rewrite Hres in H |- *; cbn in H |- *;
    try discriminate; inversion H; subst; left;
    (split; [reflexivity |]); (split; [eexists; reflexivity | reflexivity]).
Qed.

Lemma Listen_error_shapes_witness :
  (ListenerValue zeroTCPListener = ListenerValue zeroTCPListener
   /\ (exists r, ResolveTCPAddr "tcp" "localhost:80"
                 = Returns (r, Some (errorsNew "could not parse IP")))
   /\ calls (run (okProvider zeroSockaddrIn 0) (Listen "tcp" "localhost:80") 3) = [])
  \/ (ListenerValue zeroTCPListener = ListenerPointer None
      /\ (exists text : string, errorsNew "could not parse IP" = providerError text)
      /\ (exists a, ResolveTCPAddr "tcp" "localhost:80" = Returns (Some a, None))
      /\ calls (run (okProvider zeroSockaddrIn 0) (Listen "tcp" "localhost:80") 3) <> []).
Proof.
  apply (Listen_error_shapes (okProvider zeroSockaddrIn 0) 3 "tcp" "localhost:80"
           (ListenerValue zeroTCPListener) (errorsNew "could not parse IP")).
  reflexivity.
Defined.

(** X16: [Read] never panics and never changes the length of the caller's
    buffer.  After a count other than 0, every position of the buffer that
    the scratch buffer reaches holds the scratch buffer's byte, positions
    at and behind the count included (the count does not bound the copy),
    and the positions the scratch buffer does not reach are as before. *)
Theorem Read_buffer_extent {W : Type} (h : handler W) (w : W)
        (c : TCPConn) (b : list Z) :
  let '((n, perr, readMsg), w1) :=
    h (CRecv (fd c) (make (length b)) (uint32 (len b)) 0) w in
  exists (b' : list Z) (r : Z * option error),
    result (run h (TCPConn_Read c b) w) = Returns (b', r)
    /\ length b' = length b
    /\ (n <> 0 ->
        forall i : nat,
          ((i < length b)%nat -> (i < length readMsg)%nat -> b' !! i = readMsg !! i)
          /\ ((length readMsg <= i)%nat -> b' !! i = b !! i)).
Proof.
  unfold TCPConn_Read, result. cbn.
  destruct (h (CRecv (fd c) (make (length b)) (uint32 (len b)) 0) w)
    as [[[n perr] readMsg] w1].
  cbn. destruct (Z.eqb_spec n 0) as [Hn | Hn]; cbn.
  - do 2 eexists. split; [reflexivity |]. split; [reflexivity | contradiction].
  - do 2 eexists. split; [reflexivity |]. split; [apply length_copy |].
    intros _ i. split.
    + apply copy_lookup_front.
    + apply copy_lookup_back.
Qed.

Example Read_clobbers_behind_count :
  result (run (okProvider zeroSockaddrIn 1) (TCPConn_Read (mkTCPConn 4 None None) [1; 2; 3]) 9)
  = Returns ([7; 7; 7], (1, None)).
Proof. reflexivity. Qed.

(** ** The echo server's connection function *)

Lemma mrun_bind {W A B : Type} (h : handler W) (m : mprog A) (f : A -> mprog B) :
  forall w : W,
    mrun h (mpbind m f) w =
    match mrun h m w with
    | (Returns a, w1, tr1) =>
        let '(o, w2, tr2) := mrun h (f a) w1 in (o, w2, tr1 ++ tr2)
    | (Panics msg, w1, tr1) => (Panics msg, w1, tr1)
    end.
Proof.
  induction m as [a | msg | c k IH | args k IH]; intros w; simpl.
  - destruct (mrun h (f a) w) as [[o w2] tr2]. reflexivity.
  - reflexivity.
  - destruct (h c w) as [r w1]. rewrite IH.
    destruct (mrun h (k r) w1) as [[[a | msg] w2] tr1]; [| reflexivity].
    destruct (mrun h (f a) w2) as [[o w3] tr2]. reflexivity.
  - rewrite IH.
    destruct (mrun h k w) as [[[a | msg] w2] tr1]; [| reflexivity].
    destruct (mrun h (f a) w2) as [[o w3] tr2]. reflexivity.
Qed.

(** A package function run from the server makes the calls it makes on
    its own. *)
Lemma mrun_embed {W A : Type} (h : handler W) (m : prog A) :
  forall w : W,
    mrun h (embed m) w =
    let '(o, w1, tr) := run h m w in (o, w1, map EvCall tr).
Proof.
  induction m as [a | msg | c k IH]; intros w; simpl; try reflexivity.
  destruct (h c w) as [r w1]. rewrite IH.
  destruct (run h (k r) w1) as [[o w2] tr]. reflexivity.
Qed.

Lemma run_Read {W : Type} (h : handler W) (w : W) (c : TCPConn) (b : list Z) :
  run h (TCPConn_Read c b) w =
  let '((n, perr, readMsg), w1) :=
    h (CRecv (fd c) (make (length b)) (uint32 (len b)) 0) w in
  (Returns (if n =? 0 then (b, (n, Some (errorsNew "client disconnected")))
            else (copy b readMsg, (n, fromProvider perr))),
   w1, [CRecv (fd c) (make (length b)) (uint32 (len b)) 0]).
Proof.
  unfold TCPConn_Read. cbn -[make uint32 len].
  destruct (h (CRecv (fd c) (make (length b)) (uint32 (len b)) 0) w)
    as [[[n perr] readMsg] w1].
  cbn -[make uint32 len copy]. destruct (n =? 0); reflexivity.
Qed.

Lemma run_Write {W : Type} (h : handler W) (w : W) (c : TCPConn) (b : list Z) :
  run h (TCPConn_Write c b) w =
  let '((n, perr), w1) := h (CSend (fd c) b 0) w in
  (Returns (if n =? 0 then (n, Some (errorsNew "client disconnected"))
            else (n, fromProvider perr)),
   w1, [CSend (fd c) b 0]).
Proof.
  unfold TCPConn_Write. cbn.
  destruct (h (CSend (fd c) b 0) w) as [[n perr] w1].
  cbn. destruct (n =? 0); reflexivity.
Qed.

Lemma make_BUFLEN_request :
  make (length (make BUFLEN)) = make BUFLEN /\ uint32 (len (make BUFLEN)) = 1024.
Proof.
  unfold make. rewrite length_replicate. split; [reflexivity |].
  unfold len. rewrite length_replicate. reflexivity.
Qed.

Lemma length_echoReply (buf : list Z) :
  length (echoReply buf) = (13 + length buf)%nat
  /\ take 13 (echoReply buf) = bytesOf "You've sent: ".
Proof.
  unfold echoReply. rewrite length_app. split; [reflexivity |].
  rewrite take_app_le by (simpl; lia). reflexivity.
Qed.

(** One pass of the loop, by what the provider answers. *)
Lemma mrun_echoOnce {W : Type} (h : handler W) (w : W) (conn : TCPConn) :
  mrun h (echoOnce conn) w =
  let recv := EvCall (CRecv (fd conn) (make BUFLEN) 1024 0) in
  let '((n, perr, readMsg), w1) := h (CRecv (fd conn) (make BUFLEN) 1024 0) w in
  if n =? 0 then (Returns true, w1, [recv])
  else
    match perr with
    | Some pe =>
        (Returns true, w1,
         [recv;
          EvPrintln [PString "could not read from connection, removing connection";
                     PError (providerError (perrorText pe))]])
    | None =>
        let send := EvCall (CSend (fd conn) (echoReply (copy (make BUFLEN) readMsg)) 0) in
        let '((m, perr2), w2) :=
          h (CSend (fd conn) (echoReply (copy (make BUFLEN) readMsg)) 0) w1 in
        if m =? 0 then (Returns true, w2, [recv; send])
        else
          match perr2 with
          | Some pe =>
              (Returns true, w2,
               [recv; send;
                EvPrintln [PString "could not write from connection, removing connection";
                           PError (providerError (perrorText pe))]])
          | None => (Returns false, w2, [recv; send])
          end
    end.
Proof.
  unfold echoOnce. cbv zeta. unfold mbind at 1, mprog_bind at 1.
  rewrite mrun_bind, mrun_embed, run_Read.
  destruct make_BUFLEN_request as [-> ->].
  destruct (h (CRecv (fd conn) (make BUFLEN) 1024 0) w) as [[[n perr] readMsg] w1].
  destruct (n =? 0) eqn:Hn.
  - cbn -[make BUFLEN copy echoReply]. rewrite Hn. reflexivity.
  - destruct perr as [pe |]; cbn -[make BUFLEN copy echoReply].
    + rewrite Hn. reflexivity.
    + destruct (h (CSend (fd conn) (echoReply (copy (make BUFLEN) readMsg)) 0) w1)
        as [[m perr2] w2].
      cbn -[make BUFLEN copy echoReply].
      destruct (m =? 0) eqn:Hm; cbn -[make BUFLEN copy echoReply];
        rewrite ?Hm; [reflexivity |].
      destruct perr2 as [pe |]; cbn -[make BUFLEN copy echoReply];
        rewrite ?Hm; reflexivity.
Qed.

Lemma countSends_app (tr1 tr2 : list event) :
  countSends (tr1 ++ tr2) = (countSends tr1 + countSends tr2)%nat.
Proof. unfold countSends. rewrite List.filter_app, length_app. reflexivity. Qed.

Lemma echoEvent_reply (conn : TCPConn) (readMsg : list Z) :
  echoEvent conn (EvCall (CSend (fd conn) (echoReply (copy (make BUFLEN) readMsg)) 0)).
Proof.
  cbn [echoEvent]. split; [reflexivity |]. split; [reflexivity |].
  destruct (length_echoReply (copy (make BUFLEN) readMsg)) as [Hlen Hpre].
  split; [| exact Hpre].
  rewrite Hlen, length_copy. unfold make. rewrite length_replicate. reflexivity.
Qed.

Lemma echoEvent_request (conn : TCPConn) :
  echoEvent conn (EvCall (CRecv (fd conn) (make BUFLEN) 1024 0)).
Proof. cbn [echoEvent]. repeat split. Qed.

(** A property of each event of an explicit trace. *)
Ltac each_event tac :=
  repeat (apply List.Forall_cons; [tac |]); apply List.Forall_nil.

(** What one pass leaves behind. *)
Lemma echoOnce_summary {W : Type} (h : handler W) (w : W) (conn : TCPConn) :
  exists (stop : bool) (w1 : W) (tr : list event),
    mrun h (echoOnce conn) w = (Returns stop, w1, tr)
    /\ Forall (echoEvent conn) tr
    /\ Forall (fun e => isShutdownEvent e = false) tr
    /\ (countSends tr <= 1)%nat
    /\ (stop = false -> countSends tr = 1%nat).
Proof.
  rewrite mrun_echoOnce. cbv zeta.
  destruct (h (CRecv (fd conn) (make BUFLEN) 1024 0) w) as [[[n perr] readMsg] w1].
  pose proof (echoEvent_request conn) as Hrq.
  pose proof (echoEvent_reply conn readMsg) as Hrp.
  destruct (n =? 0).
  { do 3 eexists. split; [reflexivity |].
    split; [each_event ltac:(first [assumption | exact I]) |].
    split; [each_event ltac:(reflexivity) |].
    unfold countSends. cbn [List.filter isSendEvent length].
    split; [lia | discriminate]. }
  destruct perr as [pe |].
  { do 3 eexists. split; [reflexivity |].
    split; [each_event ltac:(first [assumption | exact I]) |].
    split; [each_event ltac:(reflexivity) |].
    unfold countSends. cbn [List.filter isSendEvent length].
    split; [lia | discriminate]. }
  destruct (h (CSend (fd conn) (echoReply (copy (make BUFLEN) readMsg)) 0) w1)
    as [[m perr2] w2].
  destruct (m =? 0); [| destruct perr2 as [pe |]];
    do 3 eexists; (split; [reflexivity |]);
    (split; [each_event ltac:(first [assumption | exact I]) |]);
    (split; [each_event ltac:(reflexivity) |]);
    unfold countSends; cbn [List.filter isSendEvent length];
    (split; [lia | try discriminate; reflexivity]).
Qed.

(** What the loop leaves behind: it never panics and never closes; a pass
    that does not end the loop has sent one reply. *)
Lemma echoLoop_summary {W : Type} (h : handler W) (conn : TCPConn) (fuel : nat) :
  forall w : W,
  exists (left : bool) (w1 : W) (tr : list event),
    mrun h (echoLoop fuel conn) w = (Returns left, w1, tr)
    /\ Forall (echoEvent conn) tr
    /\ Forall (fun e => isShutdownEvent e = false) tr
    /\ (countSends tr <= fuel)%nat
    /\ (left = false -> countSends tr = fuel).
Proof.
  induction fuel as [| fuel IH]; intros w.
  - exists false, w, []. repeat split; try constructor.
  - cbn [echoLoop]. unfold mbind, mprog_bind. rewrite mrun_bind.
    destruct (echoOnce_summary h w conn) as (stop & w1 & tr1 & Hr & Hev & Hns & Hle & Hct).
    rewrite Hr. destruct stop.
    + exists true, w1, tr1. cbn. rewrite app_nil_r.
      repeat split; try assumption; [lia | discriminate].
    + destruct (IH w1) as (left & w2 & tr2 & Hr2 & Hev2 & Hns2 & Hle2 & Hct2).
      rewrite Hr2. exists left, w2, (tr1 ++ tr2).
      split; [reflexivity |].
      split; [apply Forall_app; split; assumption |].
      split; [apply Forall_app; split; assumption |].
      rewrite countSends_app, (Hct eq_refl).
      split; [lia |]. intros Hl. rewrite (Hct2 Hl). reflexivity.
Qed.

(** The function after its loop. *)
Lemma mrun_serveConn {W : Type} (h : handler W) (w : W) (conn : TCPConn) (fuel : nat) :
  mrun h (serveConn fuel conn) w =
  match mrun h (echoLoop fuel conn) w with
  | (Returns true, w1, tr) =>
      let '(e, w2) := h (CShutdown (fd conn) SHUT_RDWR) w1 in
      (Returns true, w2,
       tr ++ [EvPrintln [PString "Client disconnected"];
              EvCall (CShutdown (fd conn) SHUT_RDWR)]
          ++ match e with
             | Some pe =>
                 [EvPrintln [PString "could not close connection";
                             PError (providerError (perrorText pe))]]
             | None => []
             end)
  | (Returns false, w1, tr) => (Returns false, w1, tr)
  | (Panics msg, w1, tr) => (Panics msg, w1, tr)
  end.
Proof.
  unfold serveConn. unfold mbind at 1, mprog_bind at 1. rewrite mrun_bind.
  destruct (mrun h (echoLoop fuel conn) w) as [[[[|] | msg] w1] tr];
    [| cbn; rewrite app_nil_r; reflexivity | reflexivity].
  cbn -[SHUT_RDWR].
  destruct (h (CShutdown (fd conn) SHUT_RDWR) w1) as [e w2].
  destruct e as [pe |]; reflexivity.
Qed.

(** X17: whatever the provider answers and however long it runs, the
    connection function of the echo server calls the provider only on its
    own connection's descriptor: each receive asks for 1024 bytes into a
    zeroed buffer, each send carries 1037 bytes that begin with the reply
    prefix, whatever count the receive before it reported, and the only
    other call is the shutdown of both directions. *)
Theorem serveConn_events {W : Type} (h : handler W) (w : W)
        (conn : TCPConn) (fuel : nat) :
  Forall (echoEvent conn) (snd (mrun h (serveConn fuel conn) w)).
Proof.
  rewrite mrun_serveConn.
  destruct (echoLoop_summary h conn fuel w) as (left & w1 & tr & Hr & Hev & _).
  rewrite Hr. destruct left; [| exact Hev].
  destruct (h (CShutdown (fd conn) SHUT_RDWR) w1) as [e w2]. cbn [snd].
  apply Forall_app. split; [exact Hev |].
  apply Forall_app. split.
  - repeat constructor.
  - destruct e; repeat constructor.
Qed.

(** X18: the connection function never panics.  When its loop ends, it
    prints "Client disconnected" and then shuts the connection down, once,
    as its last call to the provider, with at most lines of output behind
    it.  As long as the loop has not ended, nothing is shut down and every
    pass has sent one reply. *)
Theorem serveConn_closes_once {W : Type} (h : handler W) (w : W)
        (conn : TCPConn) (fuel : nat) :
  let '(o, _, tr) := mrun h (serveConn fuel conn) w in
  (o = Returns true
   /\ exists pre post : list event,
       tr = pre ++ [EvPrintln [PString "Client disconnected"];
                    EvCall (CShutdown (fd conn) SHUT_RDWR)] ++ post
       /\ Forall (fun e => isShutdownEvent e = false) pre
       /\ Forall (fun e => isPrintln e = true) post
       /\ (countSends pre <= fuel)%nat)
  \/ (o = Returns false
      /\ Forall (fun e => isShutdownEvent e = false) tr
      /\ countSends tr = fuel).
Proof.
  rewrite mrun_serveConn.
  destruct (echoLoop_summary h conn fuel w) as (left & w1 & tr & Hr & _ & Hns & Hle & Hct).
  rewrite Hr. destruct left.
  - destruct (h (CShutdown (fd conn) SHUT_RDWR) w1) as [e w2].
    left. split; [reflexivity |].
    eexists tr, _. split; [reflexivity |].
    split; [exact Hns |]. split; [| exact Hle].
    destruct e; repeat constructor.
  - right. split; [reflexivity |]. split; [exact Hns | exact (Hct eq_refl)].
Qed.

(** X19: when a receive, here the first, reports 0 bytes, the connection
    function sends nothing, prints no "could not read" line even if the
    provider reported an error with the 0, prints "Client disconnected"
    and shuts the connection down. *)
Theorem serveConn_zero_read {W : Type} (h : handler W) (w w1 : W)
        (conn : TCPConn) (fuel : nat) (perr : option perror) (readMsg : list Z) :
  h (CRecv (fd conn) (make BUFLEN) 1024 0) w = ((0, perr, readMsg), w1) ->
  mrun h (serveConn (S fuel) conn) w =
  let '(e, w2) := h (CShutdown (fd conn) SHUT_RDWR) w1 in
  (Returns true, w2,
   [EvCall (CRecv (fd conn) (make BUFLEN) 1024 0);
    EvPrintln [PString "Client disconnected"];
    EvCall (CShutdown (fd conn) SHUT_RDWR)]
   ++ match e with
      | Some pe =>
          [EvPrintln [PString "could not close connection";
                      PError (providerError (perrorText pe))]]
      | None => []
      end).
Proof.
  intros Hrecv. rewrite mrun_serveConn.
  cbn [echoLoop]. unfold mbind, mprog_bind. rewrite mrun_bind, mrun_echoOnce.
  cbv zeta. rewrite Hrecv. cbn -[make BUFLEN SHUT_RDWR].
  destruct (h (CShutdown (fd conn) SHUT_RDWR) w1) as [e w2]. reflexivity.
Qed.

Lemma serveConn_zero_read_witness :
  mrun (ioProvider 0 (Some (mkPerror "reset"))) (serveConn 3 (mkTCPConn 4 None None)) tt =
  let '(e, w2) := ioProvider 0 (Some (mkPerror "reset")) (CShutdown 4 SHUT_RDWR) tt in
  (Returns true, w2,
   [EvCall (CRecv 4 (make BUFLEN) 1024 0);
    EvPrintln [PString "Client disconnected"];
    EvCall (CShutdown 4 SHUT_RDWR)]
   ++ match e with
      | Some pe =>
          [EvPrintln [PString "could not close connection";
                      PError (providerError (perrorText pe))]]
      | None => []
      end).
Proof.
  apply (serveConn_zero_read (ioProvider 0 (Some (mkPerror "reset"))) tt tt
           (mkTCPConn 4 None None) 2 (Some (mkPerror "reset")) (replicate 1024 7)).
  reflexivity.
Defined.

(** X20: when a receive, here the first, reports a count other than 0 and
    no error, the reply sent is the prefix followed by the whole 1024-byte
    buffer as the receive left it, not by the bytes counted: a short
    message is echoed with the rest of the buffer behind it. *)
Theorem serveConn_reply {W : Type} (h : handler W) (w w1 : W)
        (conn : TCPConn) (fuel : nat) (n : Z) (readMsg : list Z) :
  h (CRecv (fd conn) (make BUFLEN) 1024 0) w = ((n, None, readMsg), w1) ->
  n <> 0 ->
  exists rest : list event,
    snd (mrun h (serveConn (S fuel) conn) w)
    = EvCall (CRecv (fd conn) (make BUFLEN) 1024 0)
      :: EvCall (CSend (fd conn)
                   (bytesOf "You've sent: " ++ copy (make BUFLEN) readMsg) 0)
      :: rest.
Proof.
  intros Hrecv Hn. rewrite mrun_serveConn.
  cbn [echoLoop]. unfold mbind, mprog_bind. rewrite mrun_bind, mrun_echoOnce.
  cbv zeta. rewrite Hrecv.
  destruct (Z.eqb_spec n 0) as [H0 | _]; [contradiction |].
  fold (echoReply (copy (make BUFLEN) readMsg)).
  destruct (h (CSend (fd conn) (echoReply (copy (make BUFLEN) readMsg)) 0) w1)
    as [[m perr2] w2].
  assert (Hstop : forall (w' : W) (tr : list event),
             exists rest,
               snd (let '(e, w3) := h (CShutdown (fd conn) SHUT_RDWR) w' in
                    (Returns true, w3,
                     (EvCall (CRecv (fd conn) (make BUFLEN) 1024 0)
                      :: EvCall (CSend (fd conn) (echoReply (copy (make BUFLEN) readMsg)) 0)
                      :: tr)
                     ++ [EvPrintln [PString "Client disconnected"];
                         EvCall (CShutdown (fd conn) SHUT_RDWR)]
                     ++ match e with
                        | Some pe =>
                            [EvPrintln [PString "could not close connection";
                                        PError (providerError (perrorText pe))]]
                        | None => []
                        end))
               = EvCall (CRecv (fd conn) (make BUFLEN) 1024 0)
                 :: EvCall (CSend (fd conn) (echoReply (copy (make BUFLEN) readMsg)) 0)
                 :: rest).
  { intros w' tr. destruct (h (CShutdown (fd conn) SHUT_RDWR) w') as [e w3].
    eexists. reflexivity. }
  destruct (m =? 0).
  { cbn -[make BUFLEN SHUT_RDWR echoReply copy]. apply (Hstop w2 []). }
  destruct perr2 as [pe |].
  { cbn -[make BUFLEN SHUT_RDWR echoReply copy]. apply (Hstop w2 [_]). }
  destruct (echoLoop_summary h conn fuel w2) as (left & w3 & tr & Hr & _).
  rewrite Hr. cbn -[make BUFLEN SHUT_RDWR echoReply copy].
  destruct left.
  - apply (Hstop w3 tr).
  - eexists. reflexivity.
Qed.

Lemma serveConn_reply_witness :
  exists rest : list event,
    snd (mrun (ioProvider 5 None) (serveConn 2 (mkTCPConn 4 None None)) tt)
    = EvCall (CRecv 4 (make BUFLEN) 1024 0)
      :: EvCall (CSend 4 (bytesOf "You've sent: " ++ copy (make BUFLEN) (replicate 1024 7)) 0)
      :: rest.
Proof.
  apply (serveConn_reply (ioProvider 5 None) tt tt (mkTCPConn 4 None None) 1 5
           (replicate 1024 7)).
  - reflexivity.
  - discriminate.
Defined.
